(** * SGP30 driver: checksum, word codec, command table and transactions

    A shallow embedding of [sgp30.py] and the properties its written
    specification states about it.

    Conventions of the embedding.
    - Python integers are [Z]; the bit operators [&], [^], [<<] are
      [Z.land], [Z.lxor], [Z.shiftl] (same two's-complement reading).
    - The language is Python 3: a [bytearray] / [bytes] / list of small
      integers is a [list Z] and iterating it yields integers; [/]
      between integers is true division.
    - A raised exception is the left injection of a sum; the [assert]
      statements are live (the interpreter is not run with [-O]).
    - The driver object is threaded explicitly; the I2C bus is an external
      collaborator whose answers are a parameter and whose calls are
      recorded in a log carried by the driver state. *)

From Stdlib Require Import ZArith Lia.
From stdpp Require Import gmap strings list fin_maps.

Local Open Scope Z_scope.

(** ** Exceptions *)

Inductive exn : Type :=
| AssertionError (msg : string)
| StructError          (* struct.error *)
| TypeError
| ValueError
| KeyError (key : string)
| IndexError
| IOError (errno : Z). (* raised by the bus driver *)

Definition result (A : Type) : Type := exn + A.

Definition ok {A} (a : A) : result A := inr a.
Definition raise {A} (e : exn) : result A := inl e.

Definition rbind {A B} (r : result A) (k : A -> result B) : result B :=
  match r with
  | inl e => inl e
  | inr a => k a
  end.

Definition py_assert (b : bool) (msg : string) : result unit :=
  if b then ok tt else raise (AssertionError msg).

(** ** Module constants *)

Definition _SGP30_CRC_INIT : Z := 0xff.
Definition _SGP30_CRC_POLYNOMIAL : Z := 0x31.
Definition _SGP30_FEATURE_SET_BITMASK : Z := 0xe0. (* 0b0000000011100000 *)

(** ** Checksum: [SGP30._crc] *)

(** One pass of the inner [for _ in range(8)] body. *)
Definition crc_shift (crc : Z) : Z :=
  if negb (Z.land crc 0x80 =? 0)
  then Z.lxor (Z.shiftl crc 1) _SGP30_CRC_POLYNOMIAL
  else Z.shiftl crc 1.

(** One pass of the outer [for byte in data] body. *)
Definition crc_byte (crc byte : Z) : Z :=
  Nat.iter 8 crc_shift (Z.lxor crc byte).

Definition _crc (data : list Z) : Z :=
  Z.land (fold_left crc_byte data _SGP30_CRC_INIT) 0xFF.

(** The checksum as the specification words it: an 8-bit accumulator that
    is masked after every shift, and returned as it is. *)
Module Reference.

Definition high_bit (acc : Z) : bool := Z.testbit acc 7.

Definition shift (acc : Z) : Z :=
  if high_bit acc
  then Z.land (Z.lxor (Z.shiftl acc 1) 0x31) 0xFF
  else Z.land (Z.shiftl acc 1) 0xFF.

Definition absorb (acc byte : Z) : Z :=
  Nat.iter 8 shift (Z.lxor acc byte).

Definition checksum (data : list Z) : Z :=
  fold_left absorb data 0xFF.

End Reference.

(** ** Python values the code relies on *)

(** A number as the interpreter sees it.  [/] between two integers is true
    division and yields a float, kept here as the quotient it came from. *)
Inductive pynum : Type :=
| PyInt (n : Z)
| PyFloat (num den : Z).

Definition py_truediv (a b : Z) : pynum := PyFloat a b.

(** [range(count)]: the indices [0 .. count-1]; empty for a negative
    count, and a [TypeError] for a float. *)
Definition py_range (count : pynum) : result (list nat) :=
  match count with
  | PyInt n => ok (seq 0 (Z.to_nat n))
  | PyFloat _ _ => raise TypeError
  end.

Notation "x <- m ;; k" := (rbind m (fun x => k))
  (at level 100, m at next level, right associativity, only parsing).

(** [struct.pack('>H', word)]: two bytes, big-endian; [struct.error] when
    the value is not an unsigned 16-bit number. *)
Definition struct_pack_H (word : Z) : result (list Z) :=
  if (0 <=? word) && (word <=? 0xFFFF)
  then ok [word / 256; word mod 256]
  else raise StructError.

(** [struct.unpack_from('>HB', data, offset)]: needs three bytes from
    [offset] on, else [struct.error]. *)
Definition struct_unpack_from_HB (data : list Z) (offset : nat) : result (Z * Z) :=
  match drop offset data with
  | b0 :: b1 :: c :: _ => ok (b0 * 256 + b1, c)
  | _ => raise StructError
  end.

(** ** Word codec *)

Definition bad_checksum : exn := AssertionError "Bad checksum!".

(** [SGP30._read_checksummed_word] *)
Definition _read_checksummed_word (data : list Z) (offset : nat) : result Z :=
  let word_bytes := take 2 (drop offset data) in
  wc <- struct_unpack_from_HB data offset ;;
  _ <- py_assert (snd wc =? _crc word_bytes) "Bad checksum!" ;;
  ok (fst wc).

(** The [for i in range(count)] loop of [_read_checksummed_words], run
    over the indices still to visit, with [res] as built so far. *)
Fixpoint read_words_loop (data : list Z) (idxs : list nat) (res : list Z)
  : result (list Z) :=
  match idxs with
  | [] => ok res
  | i :: idxs' =>
      let offset := ((2 + 1) * i)%nat in
      word <- _read_checksummed_word data offset ;;
      read_words_loop data idxs' (res ++ [word])
  end.

(** [SGP30._read_checksummed_words] *)
Definition _read_checksummed_words (data : list Z) (count : pynum) : result (list Z) :=
  idxs <- py_range count ;;
  read_words_loop data idxs [].

(** The [for word in words] loop of [_bytes_for_checksummed_words]; the
    source also counts [byte_offset], which it never reads. *)
Fixpoint bytes_loop (words : list Z) (res : list Z) (byte_offset : Z)
  : result (list Z) :=
  match words with
  | [] => ok res
  | word :: words' =>
      word_bytes <- struct_pack_H word ;;
      let res := res ++ word_bytes in
      let byte_offset := byte_offset + 2 in
      let res := res ++ [_crc word_bytes] in
      let byte_offset := byte_offset + 1 in
      bytes_loop words' res byte_offset
  end.

(** [SGP30._bytes_for_checksummed_words] *)
Definition _bytes_for_checksummed_words (words : list Z) : result (list Z) :=
  bytes_loop words [] 0.

(** ** Command table *)

Record SGP30Command : Type := {
  opcode_bytes : list Z;
  required_feature_set : option Z;
  parameter_length : Z;
  response_length : Z;
  response_time_ms : Z
}.

Definition _SGP30_CMDS : gmap string SGP30Command :=
  list_to_map [
    ("get_serial_number",       Build_SGP30Command [0x36; 0x82] None 0 9 1);
    ("get_feature_set_version", Build_SGP30Command [0x20; 0x2f] None 0 3 2);
    ("init_air_quality",        Build_SGP30Command [0x20; 0x03] (Some 0x20) 0 0 10);
    ("measure_air_quality",     Build_SGP30Command [0x20; 0x08] (Some 0x20) 0 6 12);
    ("get_baseline",            Build_SGP30Command [0x20; 0x15] (Some 0x20) 0 6 10);
    ("set_baseline",            Build_SGP30Command [0x20; 0x1e] (Some 0x20) 6 0 10);
    ("set_humidity",            Build_SGP30Command [0x20; 0x61] (Some 0x20) 3 0 10);
    ("measure_raw_signals",     Build_SGP30Command [0x20; 0x50] (Some 0x20) 0 6 25)
  ].

(** [_SGP30_CMDS[cmd_name]] *)
Definition cmds_getitem (cmd_name : string) : result SGP30Command :=
  match _SGP30_CMDS !! cmd_name with
  | Some cmd => ok cmd
  | None => raise (KeyError cmd_name)
  end.

(** ** Air quality readings *)

Record AirQuality : Type := { co2_ppm : Z; voc_ppb : Z }.

Definition is_probably_valid (self : AirQuality) : bool :=
  negb (co2_ppm self =? 400) || negb (voc_ppb self =? 0).

(** The constructor applied to an unpacked word list: exactly two
    positional arguments. *)
Definition AirQuality_of_words (words : list Z) : result AirQuality :=
  match words with
  | [co2; voc] => ok {| co2_ppm := co2; voc_ppb := voc |}
  | _ => raise TypeError
  end.

(** ** The bus and the driver object *)

(** What the driver does to the outside world, in order.  Diagnostic
    printing to [stderr] is not recorded. *)
Inductive io_event : Type :=
| BusOpen (bus_number : Z)
| BusClose
| BusWrite (addr cmd : Z) (vals : list Z)
| BusRead (addr cmd len : Z)
| Sleep (ms : Z).

(** The [smbus.SMBus] object: what each call answers, given the calls made
    so far ([None]: the call returned; [Some e]: it raised [e]). *)
Record SMBus : Type := {
  smbus_open : list io_event -> Z -> option exn;
  smbus_close : list io_event -> option exn;
  write_i2c_block_data : list io_event -> Z -> Z -> list Z -> option exn;
  read_i2c_block_data : list io_event -> Z -> Z -> Z -> result (list Z)
}.

(** The attributes of an [SGP30] instance, with the log of its I/O.  The
    instance's lock serialises threads and has no effect on one thread. *)
Record SGP30 : Type := {
  i2c_bus_number : Z;
  i2c_address : Z;
  _raw_feature_set : option Z;
  chip_version : option Z;
  serial_number : option (list Z);
  io_log : list io_event
}.

(** [SGP30.__init__] *)
Definition __init__ (bus_number address : Z) : SGP30 :=
  {| i2c_bus_number := bus_number;
     i2c_address := address;
     _raw_feature_set := None;
     chip_version := None;
     serial_number := None;
     io_log := [] |}.

Definition log_event (ev : io_event) (self : SGP30) : SGP30 :=
  {| i2c_bus_number := i2c_bus_number self;
     i2c_address := i2c_address self;
     _raw_feature_set := _raw_feature_set self;
     chip_version := chip_version self;
     serial_number := serial_number self;
     io_log := io_log self ++ [ev] |}.

Definition set_serial_number (v : list Z) (self : SGP30) : SGP30 :=
  {| i2c_bus_number := i2c_bus_number self;
     i2c_address := i2c_address self;
     _raw_feature_set := _raw_feature_set self;
     chip_version := chip_version self;
     serial_number := Some v;
     io_log := io_log self |}.

Definition set_raw_feature_set (v : Z) (self : SGP30) : SGP30 :=
  {| i2c_bus_number := i2c_bus_number self;
     i2c_address := i2c_address self;
     _raw_feature_set := Some v;
     chip_version := chip_version self;
     serial_number := serial_number self;
     io_log := io_log self |}.

Definition set_chip_version (v : Z) (self : SGP30) : SGP30 :=
  {| i2c_bus_number := i2c_bus_number self;
     i2c_address := i2c_address self;
     _raw_feature_set := _raw_feature_set self;
     chip_version := Some v;
     serial_number := serial_number self;
     io_log := io_log self |}.

(** Methods: state passing with exceptions; an exception keeps the state
    reached so far. *)
Definition M (A : Type) : Type := SGP30 -> SGP30 * result A.

Definition st_ret {A} (a : A) : M A := fun self => (self, ok a).

Definition st_lift {A} (r : result A) : M A := fun self => (self, r).

Definition st_get : M SGP30 := fun self => (self, ok self).

Definition st_modify (f : SGP30 -> SGP30) : M unit := fun self => (f self, ok tt).

Definition st_bind {A B} (m : M A) (k : A -> M B) : M B :=
  fun self =>
    match m self with
    | (self', inl e) => (self', inl e)
    | (self', inr a) => k a self'
    end.

Notation "x <~ m ;; k" := (st_bind m (fun x => k))
  (at level 100, m at next level, right associativity, only parsing).

Definition of_status (st : option exn) : result unit :=
  match st with
  | None => ok tt
  | Some e => raise e
  end.

(** A call on the outside world: logged, then answered from the calls
    that came before it. *)
Definition io_call {A} (ev : io_event) (answer : list io_event -> result A) : M A :=
  fun self => (log_event ev self, answer (io_log self)).

(** [bytearray(values)]: every value must be in [range(256)]. *)
Definition bytearray (values : list Z) : result (list Z) :=
  if forallb (fun b => (0 <=? b) && (b <? 256)) values
  then ok values
  else raise ValueError.

(** [time.sleep(ms / 1000.0)]: a negative length is a [ValueError]. *)
Definition sleep_ms (ms : Z) : M unit :=
  if ms <? 0 then st_lift (raise ValueError)
  else io_call (Sleep ms) (fun _ => ok tt).

Definition unsupported_chip : exn :=
  AssertionError "Unsupported chip version for this command".

Definition invalid_parameter_count : exn :=
  AssertionError "Invalid number of parameter bytes for command".

(** [SGP30._has_feature_set]; [chip_version] starts as [None], and
    [None == n] is false. *)
Definition _has_feature_set (self : SGP30) (required_feature_set : option Z) : bool :=
  match required_feature_set with
  | None => true
  | Some required =>
      match chip_version self with
      | Some v => v =? Z.land required _SGP30_FEATURE_SET_BITMASK
      | None => false
      end
  end.

Section Driver.

Variable bus : SMBus.

(** [SGP30.__read_bytes] *)
Definition __read_bytes (length : Z) : M (list Z) :=
  self <~ st_get ;;
  raw <~ io_call (BusRead (i2c_address self) 0 length)
           (fun h => read_i2c_block_data bus h (i2c_address self) 0 length) ;;
  st_lift (bytearray raw).

(** [SGP30.__write_bytes] *)
Definition __write_bytes (raw_bytes : list Z) : M unit :=
  _ <~ st_lift (py_assert (1 <=? Z.of_nat (length raw_bytes)) "") ;;
  match raw_bytes with
  | cmd_byte :: arg_bytes =>
      self <~ st_get ;;
      io_call (BusWrite (i2c_address self) cmd_byte arg_bytes)
        (fun h => of_status
                    (write_i2c_block_data bus h (i2c_address self) cmd_byte arg_bytes))
  | [] => st_lift (raise IndexError)
  end.

(** [SGP30._run_command] *)
Definition _run_command (cmd : SGP30Command) (param_bytes : option (list Z))
  : M (option (list Z)) :=
  self <~ st_get ;;
  _ <~ st_lift (py_assert (_has_feature_set self (required_feature_set cmd))
                  "Unsupported chip version for this command") ;;
  let bytes_to_write := opcode_bytes cmd in
  bytes_to_write <~
    (if 0 <? parameter_length cmd then
       match param_bytes with
       | Some pb =>
           _ <~ st_lift (py_assert (Z.of_nat (length pb) =? parameter_length cmd)
                           "Invalid number of parameter bytes for command") ;;
           st_ret (bytes_to_write ++ pb)
       | None => st_lift (raise TypeError) (* len(None) *)
       end
     else st_ret bytes_to_write) ;;
  _ <~ __write_bytes bytes_to_write ;;
  _ <~ sleep_ms (response_time_ms cmd) ;;
  if 0 <? response_length cmd then
    raw <~ __read_bytes (response_length cmd) ;;
    st_ret (Some raw)
  else st_ret None.

(** [SGP30._run_word_getter] *)
Definition _run_word_getter (cmd_name : string) : M (list Z) :=
  cmd <~ st_lift (cmds_getitem cmd_name) ;;
  _ <~ st_lift (py_assert (parameter_length cmd =? 0)
                  "This method only understands commands that take no parameters") ;;
  _ <~ st_lift (py_assert (response_length cmd mod 3 =? 0)
                  "This method only understands commands whose response is a set of (2-byte word + 1-byte checksum) pairs (i.e., the number of response bytes must be divisible by three)") ;;
  let word_count := py_truediv (response_length cmd) 3 in
  raw_bytes <~ _run_command cmd None ;;
  match raw_bytes with
  | Some data => st_lift (_read_checksummed_words data word_count)
  | None =>
      (* no response was read: [range(count)] is evaluated, and the first
         subscript of [None] raises *)
      st_lift (idxs <- py_range word_count ;;
               match idxs with
               | [] => ok []
               | _ :: _ => raise TypeError
               end)
  end.

(** [SGP30._run_word_setter] *)
Definition _run_word_setter (cmd_name : string) (words : list Z) : M unit :=
  cmd <~ st_lift (cmds_getitem cmd_name) ;;
  _ <~ st_lift (py_assert (response_length cmd =? 0)
                  "This method only understands commands that have no response") ;;
  _ <~ st_lift (py_assert (0 <? parameter_length cmd)
                  "This method only understands commands that take parameters") ;;
  _ <~ st_lift (py_assert (parameter_length cmd mod 3 =? 0)
                  "This method only understands commands whose parameter is a set of (2-byte word + 1-byte checksum) pairs (i.e., the number of parameter bytes must be divisible by three)") ;;
  param_bytes <~ st_lift (_bytes_for_checksummed_words words) ;;
  _ <~ _run_command cmd (Some param_bytes) ;;
  st_ret tt.

Definition _get_serial_number : M (list Z) :=
  _run_word_getter "get_serial_number".

Definition _get_feature_set_version : M Z :=
  words <~ _run_word_getter "get_feature_set_version" ;;
  match words with
  | w :: _ => st_ret w
  | [] => st_lift (raise IndexError)
  end.

Definition _init_air_quality : M (option (list Z)) :=
  cmd <~ st_lift (cmds_getitem "init_air_quality") ;;
  _run_command cmd None.

(** [SGP30.open] *)
Definition open : M unit :=
  self <~ st_get ;;
  _ <~ io_call (BusOpen (i2c_bus_number self))
         (fun h => of_status (smbus_open bus h (i2c_bus_number self))) ;;
  sn <~ _get_serial_number ;;
  _ <~ st_modify (set_serial_number sn) ;;
  raw <~ _get_feature_set_version ;;
  _ <~ st_modify (set_raw_feature_set raw) ;;
  _ <~ st_modify (set_chip_version (Z.land raw _SGP30_FEATURE_SET_BITMASK)) ;;
  _ <~ _init_air_quality ;;
  st_ret tt.

(** [SGP30.close] *)
Definition close : M unit :=
  io_call BusClose (fun h => of_status (smbus_close bus h)).

Definition measure_air_quality : M AirQuality :=
  words <~ _run_word_getter "measure_air_quality" ;;
  st_lift (AirQuality_of_words words).

Definition get_baseline : M AirQuality :=
  words <~ _run_word_getter "get_baseline" ;;
  st_lift (AirQuality_of_words words).

Definition set_baseline (co2_baseline voc_baseline : Z) : M unit :=
  _run_word_setter "set_baseline" [co2_baseline; voc_baseline].

Definition set_humidity (humidity : Z) : M unit :=
  _run_word_setter "set_humidity" [humidity].

Definition measure_raw_signals : M (list Z) :=
  _run_word_getter "measure_raw_signals".

End Driver.

(** ** Vocabulary of the statements *)

Definition is_uint16 (w : Z) : Prop := 0 <= w <= 0xFFFF.

(** The three bytes a word occupies on the wire. *)
Definition wire_triplet (w : Z) : list Z :=
  [w / 256; w mod 256; _crc [w / 256; w mod 256]].

(** The triplet stored at index [i] of a buffer, when it is all there. *)
Definition triplet_at (data : list Z) (i : nat) : option (Z * Z * Z) :=
  match data !! (3 * i)%nat, data !! (3 * i + 1)%nat, data !! (3 * i + 2)%nat with
  | Some b0, Some b1, Some c => Some (b0, b1, c)
  | _, _, _ => None
  end.

(** A stored checksum that agrees, or disagrees, with the recomputed one. *)
Definition triplet_good (data : list Z) (j : nat) : Prop :=
  exists b0 b1, triplet_at data j = Some (b0, b1, _crc [b0; b1]).

Definition triplet_bad (data : list Z) (i : nat) : Prop :=
  exists b0 b1 c, triplet_at data i = Some (b0, b1, c) /\ c <> _crc [b0; b1].

(** Triplet [i] is the first one whose checksum disagrees. *)
Definition first_bad (data : list Z) (i : nat) : Prop :=
  (forall j, (j < i)%nat -> triplet_good data j) /\ triplet_bad data i.

(** Flip bit [k] of the byte at position [pos]. *)
Definition flip_bit (pos : nat) (k : Z) (data : list Z) : list Z :=
  alter (fun c => Z.lxor c (2 ^ k)) pos data.

(** The error of a failed decoding tells which triplet was the first bad
    one: some function of the exception alone recovers the index. *)
Definition error_identifies_triplet : Prop :=
  exists index_of : exn -> nat,
    forall (data : list Z) (count i : nat) (e : exn),
      (i < count)%nat -> first_bad data i ->
      _read_checksummed_words data (PyInt (Z.of_nat count)) = raise e ->
      index_of e = i.

(** A row of the command table in the units of the specification: the
    opcode as one 16-bit number, lengths in words of three wire bytes. *)
Record table_row : Type := {
  row_opcode : Z;
  row_needs_capability : bool;
  row_parameter_words : Z;
  row_response_words : Z;
  row_settle_ms : Z
}.

Definition describe (cmd : SGP30Command) : option table_row :=
  match opcode_bytes cmd with
  | [hi; lo] =>
      if (parameter_length cmd mod 3 =? 0) && (response_length cmd mod 3 =? 0)
      then Some {| row_opcode := hi * 256 + lo;
                   row_needs_capability :=
                     match required_feature_set cmd with
                     | Some _ => true
                     | None => false
                     end;
                   row_parameter_words := parameter_length cmd / 3;
                   row_response_words := response_length cmd / 3;
                   row_settle_ms := response_time_ms cmd |}
      else None
  | _ => None
  end.

Definition documented_table : list (string * table_row) :=
  [ ("get_serial_number",       Build_table_row 0x3682 false 0 3 1);
    ("get_feature_set_version", Build_table_row 0x202f false 0 1 2);
    ("init_air_quality",        Build_table_row 0x2003 true  0 0 10);
    ("measure_air_quality",     Build_table_row 0x2008 true  0 2 12);
    ("get_baseline",            Build_table_row 0x2015 true  0 2 10);
    ("set_baseline",            Build_table_row 0x201e true  2 0 10);
    ("set_humidity",            Build_table_row 0x2061 true  1 0 10);
    ("measure_raw_signals",     Build_table_row 0x2050 true  0 2 25) ].

(** A bus double that accepts every call and answers a read of [len]
    bytes with [len] zero bytes. *)
Definition quiet_bus : SMBus :=
  {| smbus_open := fun _ _ => None;
     smbus_close := fun _ => None;
     write_i2c_block_data := fun _ _ _ _ => None;
     read_i2c_block_data := fun _ _ _ len => ok (replicate (Z.to_nat len) 0) |}.

(** A driver whose [chip_version] attribute holds the feature set the
    commands ask for. *)
Definition identified_driver : SGP30 :=
  {| i2c_bus_number := 1;
     i2c_address := 0x58;
     _raw_feature_set := Some 0x0020;
     chip_version := Some 0x20;
     serial_number := Some [0; 0; 0];
     io_log := [BusOpen 1] |}.

(** A value a [bytearray] can hold. *)
Definition is_byte (b : Z) : Prop := 0 <= b < 256.

#[global] Instance is_uint16_dec (w : Z) : Decision (is_uint16 w).
Proof. unfold is_uint16. apply _. Defined.

(** The loop of [_crc] started from another accumulator; [_crc] is
    [crc_from _SGP30_CRC_INIT]. *)
Definition crc_from (init : Z) (data : list Z) : Z :=
  Z.land (fold_left crc_byte data init) 0xFF.

(** The driver after some more I/O, its attributes untouched. *)
Definition extend_log (evs : list io_event) (self : SGP30) : SGP30 :=
  {| i2c_bus_number := i2c_bus_number self;
     i2c_address := i2c_address self;
     _raw_feature_set := _raw_feature_set self;
     chip_version := chip_version self;
     serial_number := serial_number self;
     io_log := io_log self ++ evs |}.

(** The bytes a command puts on the bus: its opcode, then the parameter
    bytes when it takes some. *)
Definition frame (cmd : SGP30Command) (param_bytes : option (list Z)) : list Z :=
  opcode_bytes cmd
  ++ (if 0 <? parameter_length cmd then default [] param_bytes else []).

(** The I/O of one whole command: write, settle, then read when a
    response is due. *)
Definition transaction (self : SGP30) (cmd : SGP30Command)
           (param_bytes : option (list Z)) : list io_event :=
  match frame cmd param_bytes with
  | cmd_byte :: arg_bytes =>
      [BusWrite (i2c_address self) cmd_byte arg_bytes; Sleep (response_time_ms cmd)]
      ++ (if 0 <? response_length cmd
          then [BusRead (i2c_address self) 0 (response_length cmd)]
          else [])
  | [] => []
  end.

(** The part of [_run_command] that follows its two preconditions, under
    the lock: write, settle, read. *)
Definition run_frame (bus : SMBus) (cmd : SGP30Command) (bytes_to_write : list Z)
  : M (option (list Z)) :=
  _ <~ __write_bytes bus bytes_to_write ;;
  _ <~ sleep_ms (response_time_ms cmd) ;;
  if 0 <? response_length cmd then
    raw <~ __read_bytes bus (response_length cmd) ;;
    st_ret (Some raw)
  else st_ret None.

(** One exception stands for "not ready": every measurement operation
    on a driver just constructed, or constructed and closed, raises it,
    whatever the bus and the arguments. *)
Definition fails_with_not_ready_error : Prop :=
  exists not_ready : exn,
    forall (bus : SMBus) (bus_number address : Z)
           (co2_baseline voc_baseline humidity : Z) (self : SGP30),
      self = __init__ bus_number address
      \/ self = fst (close bus (__init__ bus_number address)) ->
      snd (measure_air_quality bus self) = raise not_ready
      /\ snd (get_baseline bus self) = raise not_ready
      /\ snd (measure_raw_signals bus self) = raise not_ready
      /\ snd (set_baseline bus co2_baseline voc_baseline self) = raise not_ready
      /\ snd (set_humidity bus humidity self) = raise not_ready.

(** * Proofs *)

(** ** Checksum *)

Section CrcFacts.

Lemma low8_mod (a : Z) : Z.land a 0xFF = a mod 256.
Proof. change 0xFF with (Z.ones 8). now rewrite Z.land_ones by lia. Qed.

Lemma low8_range (a : Z) : 0 <= Z.land a 0xFF < 256.
Proof. rewrite low8_mod. apply Z.mod_pos_bound. lia. Qed.

Lemma low8_idem (a : Z) : Z.land (Z.land a 0xFF) 0xFF = Z.land a 0xFF.
Proof. rewrite <- Z.land_assoc. reflexivity. Qed.

Lemma low8_small (a : Z) : 0 <= a < 256 -> Z.land a 0xFF = a.
Proof. intros H. rewrite low8_mod. apply Z.mod_small. lia. Qed.

Lemma land_lxor_distr (a b c : Z) :
  Z.land (Z.lxor a b) c = Z.lxor (Z.land a c) (Z.land b c).
Proof.
  apply Z.bits_inj'. intros n _.
  rewrite Z.lxor_spec, !Z.land_spec, Z.lxor_spec.
  destruct (Z.testbit a n), (Z.testbit b n), (Z.testbit c n); reflexivity.
Qed.

Lemma bit7_low8 (a : Z) : Z.testbit (Z.land a 0xFF) 7 = Z.testbit a 7.
Proof. rewrite Z.land_spec. change (Z.testbit 0xFF 7) with true. apply andb_true_r. Qed.

(** The test [crc & 0x80] of the source is the test of bit 7. *)
Lemma land_0x80 (a : Z) : negb (Z.land a 0x80 =? 0) = Z.testbit a 7.
Proof.
  assert (E : Z.land a 0x80 = if Z.testbit a 7 then 0x80 else 0).
  { apply Z.bits_inj'. intros n Hn. rewrite Z.land_spec.
    destruct (Z.eq_dec n 7) as [->|Hne].
    - change (Z.testbit 0x80 7) with true. rewrite andb_true_r.
      destruct (Z.testbit a 7); reflexivity.
    - assert (Z.testbit 0x80 n = false) as ->.
      { change 0x80 with (2 ^ 7). apply Z.pow2_bits_false. lia. }
      rewrite andb_false_r.
      destruct (Z.testbit a 7); [|now rewrite Z.bits_0].
      change 0x80 with (2 ^ 7). symmetry. apply Z.pow2_bits_false. lia. }
  rewrite E. destruct (Z.testbit a 7); reflexivity.
Qed.

Lemma low8_shiftl (a : Z) :
  Z.land (Z.shiftl a 1) 0xFF = Z.land (Z.shiftl (Z.land a 0xFF) 1) 0xFF.
Proof.
  rewrite !Z.shiftl_mul_pow2 by lia. rewrite !low8_mod.
  change (2 ^ 1) with 2. now rewrite Z.mul_mod_idemp_l by lia.
Qed.

(** Bits above position 7 never feed back: the low byte of a shift step
    is a function of the low byte of its argument. *)
Lemma crc_shift_low8 (a : Z) :
  Z.land (crc_shift a) 0xFF = Z.land (crc_shift (Z.land a 0xFF)) 0xFF.
Proof.
  unfold crc_shift. rewrite !land_0x80, bit7_low8.
  destruct (Z.testbit a 7).
  - rewrite !land_lxor_distr. f_equal. apply low8_shiftl.
  - apply low8_shiftl.
Qed.

Lemma crc_shift_reference (a : Z) :
  Z.land (crc_shift a) 0xFF = Reference.shift (Z.land a 0xFF).
Proof.
  rewrite crc_shift_low8. unfold crc_shift, Reference.shift, Reference.high_bit.
  rewrite land_0x80. destruct (Z.testbit (Z.land a 0xFF) 7); reflexivity.
Qed.

Lemma reference_shift_low8 (a : Z) :
  Reference.shift (Z.land a 0xFF) = Reference.shift a.
Proof.
  unfold Reference.shift, Reference.high_bit. rewrite bit7_low8.
  destruct (Z.testbit a 7).
  - rewrite !land_lxor_distr. f_equal. symmetry. apply low8_shiftl.
  - symmetry. apply low8_shiftl.
Qed.

Lemma reference_shift_range (a : Z) : 0 <= Reference.shift a < 256.
Proof. unfold Reference.shift. destruct (Reference.high_bit a); apply low8_range. Qed.

Lemma reference_iter_range (n : nat) (a : Z) :
  0 <= Nat.iter (S n) Reference.shift a < 256.
Proof. rewrite Nat.iter_succ. apply reference_shift_range. Qed.

Lemma reference_iter_low8 (n : nat) (a : Z) :
  Nat.iter (S n) Reference.shift (Z.land a 0xFF) = Nat.iter (S n) Reference.shift a.
Proof.
  induction n as [|n IH].
  - apply reference_shift_low8.
  - rewrite (Nat.iter_succ (S n)), IH. symmetry. apply Nat.iter_succ.
Qed.

Lemma crc_shift_iter (n : nat) (a : Z) :
  Z.land (Nat.iter n crc_shift a) 0xFF
  = Z.land (Nat.iter n Reference.shift (Z.land a 0xFF)) 0xFF.
Proof.
  induction n as [|n IH].
  - simpl. now rewrite low8_idem.
  - rewrite !Nat.iter_succ.
    rewrite crc_shift_reference, IH, reference_shift_low8.
    symmetry. apply low8_small, reference_shift_range.
Qed.

Lemma reference_absorb_range (acc b : Z) : 0 <= Reference.absorb acc b < 256.
Proof. apply reference_iter_range. Qed.

Lemma reference_absorb_low8 (acc b : Z) :
  Reference.absorb (Z.land acc 0xFF) b = Reference.absorb acc b.
Proof.
  unfold Reference.absorb.
  rewrite <- (reference_iter_low8 7 (Z.lxor acc b)).
  rewrite <- (reference_iter_low8 7 (Z.lxor (Z.land acc 0xFF) b)).
  f_equal. rewrite !land_lxor_distr. now rewrite low8_idem.
Qed.

Lemma crc_byte_reference (acc b : Z) :
  Z.land (crc_byte acc b) 0xFF = Reference.absorb (Z.land acc 0xFF) b.
Proof.
  rewrite reference_absorb_low8.
  unfold crc_byte, Reference.absorb. rewrite crc_shift_iter.
  rewrite low8_small by apply reference_iter_range.
  apply reference_iter_low8.
Qed.

Lemma crc_fold_reference (data : list Z) (a b : Z) :
  Z.land a 0xFF = Z.land b 0xFF ->
  Z.land (fold_left crc_byte data a) 0xFF
  = Z.land (fold_left Reference.absorb data b) 0xFF.
Proof.
  revert a b. induction data as [|x data IH]; intros a b Hab; simpl.
  - exact Hab.
  - apply IH. rewrite crc_byte_reference, Hab, reference_absorb_low8.
    symmetry. apply low8_small, reference_absorb_range.
Qed.

Lemma reference_fold_range (data : list Z) (b : Z) :
  0 <= b < 256 -> 0 <= fold_left Reference.absorb data b < 256.
Proof.
  revert b. induction data as [|x data IH]; intros b Hb; simpl; [exact Hb|].
  apply IH, reference_absorb_range.
Qed.

Lemma crc_snoc (data : list Z) (b : Z) :
  _crc (data ++ [b]) = Reference.absorb (_crc data) b.
Proof.
  unfold _crc. rewrite fold_left_app. simpl.
  now rewrite crc_byte_reference.
Qed.

Lemma crc_range (data : list Z) : 0 <= _crc data < 256.
Proof. apply low8_range. Qed.

End CrcFacts.

(** C1. [_crc] is the CRC-8 of the specification: it starts from [0xFF]
    on the empty input; appending a byte XORs it into the checksum so far
    and runs eight shift steps, each a left shift with a conditional XOR
    of [0x31] on the high bit, kept to eight bits; the result is always an
    8-bit value; and [[0xBE; 0xEF]] gives [0x92]. *)
Theorem crc_is_crc8 :
  _crc [] = 0xFF
  /\ (forall (data : list Z) (b : Z),
        _crc (data ++ [b]) = Nat.iter 8 Reference.shift (Z.lxor (_crc data) b))
  /\ (forall data : list Z, 0 <= _crc data < 256)
  /\ _crc [0xBE; 0xEF] = 0x92.
Proof.
  split; [reflexivity|]. split; [exact crc_snoc|].
  split; [exact crc_range|]. reflexivity.
Qed.

(** C10. Masking once at the end, as [_crc] does, gives on every input the
    same value as masking after every shift, as the reference wording
    does: the branch tests bit 7 only, the polynomial fits in the low
    byte, and the low byte of a shift step depends on the low byte of its
    argument alone. *)
Theorem crc_single_mask_equivalent :
  (forall data : list Z, _crc data = Reference.checksum data)
  /\ (forall a : Z, negb (Z.land a 0x80 =? 0) = Z.testbit a 7)
  /\ Z.land _SGP30_CRC_POLYNOMIAL 0x3F = _SGP30_CRC_POLYNOMIAL
  /\ (forall a : Z,
        Z.land (crc_shift a) 0xFF = Z.land (crc_shift (Z.land a 0xFF)) 0xFF).
Proof.
  split.
  - intros data. unfold _crc, Reference.checksum.
    rewrite (crc_fold_reference data _SGP30_CRC_INIT 0xFF) by reflexivity.
    apply low8_small, reference_fold_range. lia.
  - split; [exact land_0x80|]. split; [reflexivity|exact crc_shift_low8].
Qed.

(** ** Word codec *)

Section CodecFacts.

Lemma struct_pack_H_uint16 (w : Z) :
  is_uint16 w -> struct_pack_H w = ok [w / 256; w mod 256].
Proof.
  unfold is_uint16, struct_pack_H. intros H.
  replace (0 <=? w) with true by (symmetry; apply Z.leb_le; lia).
  replace (w <=? 0xFFFF) with true by (symmetry; apply Z.leb_le; lia).
  reflexivity.
Qed.

Lemma struct_pack_H_not_uint16 (w : Z) :
  ~ is_uint16 w -> struct_pack_H w = raise StructError.
Proof.
  unfold is_uint16, struct_pack_H. intros H.
  destruct (0 <=? w) eqn:E1; [|reflexivity].
  destruct (w <=? 0xFFFF) eqn:E2; [|reflexivity].
  apply Z.leb_le in E1, E2. lia.
Qed.

Lemma bytes_loop_uint16 (words res : list Z) (off : Z) :
  Forall is_uint16 words ->
  bytes_loop words res off = ok (res ++ concat (wire_triplet <$> words)).
Proof.
  intros H. revert res off.
  induction H as [|w words Hw _ IH]; intros res off; simpl.
  - now rewrite app_nil_r.
  - rewrite (struct_pack_H_uint16 w Hw). simpl. rewrite IH.
    f_equal. now rewrite <- !app_assoc.
Qed.

Lemma bytes_loop_not_uint16 (words res : list Z) (off : Z) :
  Exists (fun w => ~ is_uint16 w) words ->
  bytes_loop words res off = raise StructError.
Proof.
  revert res off. induction words as [|w words IH]; intros res off H.
  - inversion H.
  - simpl. destruct (decide (0 <= w <= 0xFFFF)) as [Hw|Hw].
    + rewrite (struct_pack_H_uint16 w Hw). simpl. apply IH.
      inversion H; subst; [contradiction|assumption].
    + now rewrite (struct_pack_H_not_uint16 w Hw).
Qed.

Lemma length_wire (words : list Z) :
  length (concat (wire_triplet <$> words)) = (3 * length words)%nat.
Proof.
  induction words as [|w words IH]; [reflexivity|].
  cbn [fmap list_fmap concat]. rewrite length_app, IH. simpl. lia.
Qed.

(** Reading at the start of a triplet whose third byte is the checksum
    of the first two. *)
Lemma read_word_at (pre rest : list Z) (b0 b1 c : Z) :
  _read_checksummed_word (pre ++ b0 :: b1 :: c :: rest) (length pre)
  = if c =? _crc [b0; b1] then ok (b0 * 256 + b1) else raise bad_checksum.
Proof.
  unfold _read_checksummed_word, struct_unpack_from_HB.
  rewrite drop_app_length. simpl.
  destruct (c =? _crc [b0; b1]); reflexivity.
Qed.

Lemma read_word_wire (pre rest : list Z) (w : Z) :
  _read_checksummed_word (pre ++ wire_triplet w ++ rest) (length pre) = ok w.
Proof.
  unfold wire_triplet. simpl. rewrite read_word_at, Z.eqb_refl.
  f_equal. pose proof (Z.div_mod w 256). lia.
Qed.

Lemma read_words_loop_wire (words pre post res : list Z) (k : nat) :
  length pre = (3 * k)%nat ->
  read_words_loop (pre ++ concat (wire_triplet <$> words) ++ post)
    (seq k (length words)) res
  = ok (res ++ words).
Proof.
  revert pre res k. induction words as [|w words IH]; intros pre res k Hk.
  - simpl. now rewrite app_nil_r.
  - cbn [length seq read_words_loop fmap list_fmap concat].
    change ((2 + 1) * k)%nat with (3 * k)%nat. rewrite <- Hk.
    rewrite <- (app_assoc (wire_triplet w)), read_word_wire. cbn [rbind ok].
    rewrite (app_assoc pre (wire_triplet w)).
    rewrite IH; [now rewrite <- app_assoc|].
    rewrite length_app. simpl. lia.
Qed.

Lemma triplet_at_drop (data : list Z) (i : nat) (b0 b1 c : Z) :
  triplet_at data i = Some (b0, b1, c) ->
  drop (3 * i) data = b0 :: b1 :: c :: drop (3 * i + 3) data.
Proof.
  unfold triplet_at. intros H.
  destruct (data !! (3 * i)%nat) as [x0|] eqn:E0; [|discriminate].
  destruct (data !! (3 * i + 1)%nat) as [x1|] eqn:E1; [|discriminate].
  destruct (data !! (3 * i + 2)%nat) as [x2|] eqn:E2; [|discriminate].
  injection H as -> -> ->.
  rewrite (drop_S _ _ _ E0).
  replace (S (3 * i)) with (3 * i + 1)%nat by lia. rewrite (drop_S _ _ _ E1).
  replace (S (3 * i + 1)) with (3 * i + 2)%nat by lia. rewrite (drop_S _ _ _ E2).
  do 4 f_equal. lia.
Qed.

Lemma read_word_triplet (data : list Z) (i : nat) (b0 b1 c : Z) :
  triplet_at data i = Some (b0, b1, c) ->
  _read_checksummed_word data ((2 + 1) * i)
  = if c =? _crc [b0; b1] then ok (b0 * 256 + b1) else raise bad_checksum.
Proof.
  intros H. apply triplet_at_drop in H.
  unfold _read_checksummed_word, struct_unpack_from_HB.
  change ((2 + 1) * i)%nat with (3 * i)%nat. rewrite H. simpl.
  destruct (c =? _crc [b0; b1]); reflexivity.
Qed.

Lemma read_word_good (data : list Z) (j : nat) :
  triplet_good data j -> exists w, _read_checksummed_word data ((2 + 1) * j) = ok w.
Proof.
  intros (b0 & b1 & H). exists (b0 * 256 + b1).
  now rewrite (read_word_triplet _ _ _ _ _ H), Z.eqb_refl.
Qed.

Lemma read_word_bad (data : list Z) (i : nat) :
  triplet_bad data i -> _read_checksummed_word data ((2 + 1) * i) = raise bad_checksum.
Proof.
  intros (b0 & b1 & c & H & Hc).
  rewrite (read_word_triplet _ _ _ _ _ H).
  destruct (c =? _crc [b0; b1]) eqn:E; [|reflexivity].
  apply Z.eqb_eq in E. contradiction.
Qed.

(** The loop stops at the first disagreeing triplet it reaches. *)
Lemma read_words_loop_first_bad (data : list Z) (i n k : nat) (res : list Z) :
  first_bad data i -> (k <= i < k + n)%nat ->
  read_words_loop data (seq k n) res = raise bad_checksum.
Proof.
  intros [Hgood Hbad]. revert k res.
  induction n as [|n IH]; intros k res Hk; [lia|].
  cbn [seq read_words_loop].
  destruct (decide (k = i)) as [->|Hne].
  - now rewrite (read_word_bad _ _ Hbad).
  - destruct (read_word_good data k) as [w Hw]; [apply Hgood; lia|].
    rewrite Hw. cbn [rbind ok]. apply IH. lia.
Qed.

Lemma triplet_at_take (data rest : list Z) (i j : nat) :
  (j <= i)%nat -> is_Some (triplet_at data j) ->
  triplet_at (take (3 * (i + 1)) data ++ rest) j = triplet_at data j.
Proof.
  intros Hji [t Ht]. unfold triplet_at in *.
  destruct (data !! (3 * j)%nat) as [x0|] eqn:E0; [|discriminate].
  destruct (data !! (3 * j + 1)%nat) as [x1|] eqn:E1; [|discriminate].
  destruct (data !! (3 * j + 2)%nat) as [x2|] eqn:E2; [|discriminate].
  pose proof (lookup_lt_Some _ _ _ E2) as Hlen.
  rewrite !lookup_app_l by (rewrite length_take; lia).
  rewrite !lookup_take_lt by lia.
  now rewrite E0, E1, E2.
Qed.

Lemma first_bad_take (data rest : list Z) (i : nat) :
  first_bad data i -> first_bad (take (3 * (i + 1)) data ++ rest) i.
Proof.
  intros [Hgood Hbad]. split.
  - intros j Hj. destruct (Hgood j Hj) as (b0 & b1 & H).
    exists b0, b1. rewrite triplet_at_take; [exact H|lia|rewrite H; eauto].
  - destruct Hbad as (b0 & b1 & c & H & Hc).
    exists b0, b1, c. split; [|exact Hc].
    rewrite triplet_at_take; [exact H|lia|rewrite H; eauto].
Qed.

Lemma triplet_at_wire (words : list Z) (j : nat) (w : Z) :
  words !! j = Some w ->
  triplet_at (concat (wire_triplet <$> words)) j
  = Some (w / 256, w mod 256, _crc [w / 256; w mod 256]).
Proof.
  revert j. induction words as [|x words IH]; intros j H; [discriminate|].
  destruct j as [|j].
  - injection H as ->. reflexivity.
  - cbn [lookup list_lookup] in H. specialize (IH j H).
    unfold triplet_at in *. cbn [fmap list_fmap concat wire_triplet app].
    replace (3 * S j)%nat with (S (S (S (3 * j)))) by lia.
    replace (S (S (S (3 * j))) + 1)%nat with (S (S (S (3 * j + 1)))) by lia.
    replace (S (S (S (3 * j))) + 2)%nat with (S (S (S (3 * j + 2)))) by lia.
    exact IH.
Qed.

Lemma lxor_changes (c x : Z) : x <> 0 -> Z.lxor c x <> c.
Proof.
  intros Hx E. apply Hx.
  assert (H : x = Z.lxor c (Z.lxor c x))
    by now rewrite <- Z.lxor_assoc, Z.lxor_nilpotent, Z.lxor_0_l.
  rewrite H, E. apply Z.lxor_nilpotent.
Qed.

(** Flipping a bit of the checksum byte of word [j] makes triplet [j]
    the first bad one. *)
Lemma first_bad_flip (words : list Z) (j : nat) (k : Z) :
  (j < length words)%nat -> 0 <= k ->
  first_bad (flip_bit (3 * j + 2) k (concat (wire_triplet <$> words))) j.
Proof.
  intros Hj Hk. unfold flip_bit. split.
  - intros j' Hj'.
    destruct (lookup_lt_is_Some_2 words j') as [w Hw]; [lia|].
    exists (w / 256), (w mod 256).
    rewrite <- (triplet_at_wire _ _ _ Hw). unfold triplet_at.
    rewrite !list_lookup_alter_ne by lia. reflexivity.
  - destruct (lookup_lt_is_Some_2 words j Hj) as [w Hw].
    pose proof (triplet_at_wire _ _ _ Hw) as Ht. unfold triplet_at in *.
    destruct (_ !! (3 * j)%nat) as [x0|] eqn:E0; [|discriminate].
    destruct (_ !! (3 * j + 1)%nat) as [x1|] eqn:E1; [|discriminate].
    destruct (_ !! (3 * j + 2)%nat) as [x2|] eqn:E2; [|discriminate].
    injection Ht as -> -> ->.
    exists (w / 256), (w mod 256), (Z.lxor (_crc [w / 256; w mod 256]) (2 ^ k)).
    unfold triplet_at.
    rewrite !list_lookup_alter_ne by lia.
    rewrite list_lookup_alter_eq, E0, E1, E2. split; [reflexivity|].
    apply lxor_changes. pose proof (Z.pow_pos_nonneg 2 k). lia.
Qed.

End CodecFacts.

(** C2. Encoding a sequence of 16-bit words succeeds, yields three bytes
    per word, and decoding the bytes with the number of words as count
    gives the words back. *)
Theorem codec_round_trip (W : list Z) :
  Forall is_uint16 W ->
  exists bs : list Z,
    _bytes_for_checksummed_words W = ok bs
    /\ length bs = (3 * length W)%nat
    /\ _read_checksummed_words bs (PyInt (Z.of_nat (length W))) = ok W.
Proof.
  intros HW. exists (concat (wire_triplet <$> W)). split; [|split].
  - unfold _bytes_for_checksummed_words. now rewrite bytes_loop_uint16.
  - apply length_wire.
  - unfold _read_checksummed_words, py_range. cbn [rbind ok].
    rewrite Nat2Z.id.
    pose proof (read_words_loop_wire W [] [] [] 0 eq_refl) as H.
    rewrite app_nil_r in H. exact H.
Qed.

Lemma codec_round_trip_witness :
  exists bs : list Z,
    _bytes_for_checksummed_words [0xBEEF; 0; 0xFFFF] = ok bs
    /\ length bs = 9%nat
    /\ _read_checksummed_words bs (PyInt 3) = ok [0xBEEF; 0; 0xFFFF].
Proof.
  apply (codec_round_trip [0xBEEF; 0; 0xFFFF]).
  repeat constructor; unfold is_uint16; lia.
Defined.

(** C3, as the code has it. When triplet [i] is the first whose stored
    checksum differs from the recomputed one and [i] is below the count,
    decoding raises [AssertionError "Bad checksum!"], whatever follows
    that triplet in the buffer; so does decoding an encoded sequence after
    flipping one bit of the checksum byte of one of its words. *)
Theorem decode_stops_at_first_bad_triplet :
  (forall (data rest : list Z) (count i : nat),
      (i < count)%nat -> first_bad data i ->
      _read_checksummed_words data (PyInt (Z.of_nat count))
      = raise (AssertionError "Bad checksum!")
      /\ _read_checksummed_words (take (3 * (i + 1)) data ++ rest)
           (PyInt (Z.of_nat count))
         = raise (AssertionError "Bad checksum!"))
  /\ (forall (W : list Z) (j : nat) (k : Z),
        Forall is_uint16 W -> (j < length W)%nat -> 0 <= k < 8 ->
        exists bs : list Z,
          _bytes_for_checksummed_words W = ok bs
          /\ _read_checksummed_words (flip_bit (3 * j + 2) k bs)
               (PyInt (Z.of_nat (length W)))
             = raise (AssertionError "Bad checksum!")).
Proof.
  assert (Hstop : forall (data : list Z) (count i : nat),
             (i < count)%nat -> first_bad data i ->
             _read_checksummed_words data (PyInt (Z.of_nat count))
             = raise bad_checksum).
  { intros data count i Hi Hbad.
    unfold _read_checksummed_words, py_range. cbn [rbind ok].
    rewrite Nat2Z.id. apply (read_words_loop_first_bad data i); [exact Hbad|lia]. }
  split.
  - intros data rest count i Hi Hbad. split.
    + now apply (Hstop data count i).
    + apply (Hstop _ count i Hi). now apply first_bad_take.
  - intros W j k HW Hj Hk. exists (concat (wire_triplet <$> W)). split.
    + unfold _bytes_for_checksummed_words. now rewrite bytes_loop_uint16.
    + apply (Hstop _ _ j Hj). apply first_bad_flip; [exact Hj|lia].
Qed.

Lemma first_bad_example : first_bad [0xBE; 0xEF; 0x92; 0xBE; 0xEF; 0x00; 7] 1.
Proof.
  split.
  - intros j Hj. assert (j = 0%nat) as -> by lia. exists 0xBE, 0xEF. reflexivity.
  - exists 0xBE, 0xEF, 0x00. split; [reflexivity|]. vm_compute. discriminate.
Defined.

Lemma decode_stops_at_first_bad_triplet_witness :
  (_read_checksummed_words [0xBE; 0xEF; 0x92; 0xBE; 0xEF; 0x00; 7] (PyInt 3)
   = raise (AssertionError "Bad checksum!")
   /\ _read_checksummed_words
        (take 6 [0xBE; 0xEF; 0x92; 0xBE; 0xEF; 0x00; 7] ++ [1; 2; 3]) (PyInt 3)
      = raise (AssertionError "Bad checksum!"))
  /\ exists bs : list Z,
       _bytes_for_checksummed_words [0xBEEF; 0x0190] = ok bs
       /\ _read_checksummed_words (flip_bit 5 3 bs) (PyInt 2)
          = raise (AssertionError "Bad checksum!").
Proof.
  split.
  - apply (proj1 decode_stops_at_first_bad_triplet
             [0xBE; 0xEF; 0x92; 0xBE; 0xEF; 0x00; 7] [1; 2; 3] 3%nat 1%nat).
    + lia.
    + exact first_bad_example.
  - apply (proj2 decode_stops_at_first_bad_triplet [0xBEEF; 0x0190] 1%nat 3).
    + repeat constructor; unfold is_uint16; lia.
    + simpl. lia.
    + lia.
Defined.

(** C3, as stated, fails: the exception is the same whichever triplet was
    the first bad one, so it cannot identify the index. *)
Lemma decode_error_carries_no_index :
  first_bad [0xBE; 0xEF; 0x00; 0xBE; 0xEF; 0x92] 0
  /\ first_bad [0xBE; 0xEF; 0x92; 0xBE; 0xEF; 0x00] 1
  /\ _read_checksummed_words [0xBE; 0xEF; 0x00; 0xBE; 0xEF; 0x92] (PyInt 2)
     = raise (AssertionError "Bad checksum!")
  /\ _read_checksummed_words [0xBE; 0xEF; 0x92; 0xBE; 0xEF; 0x00] (PyInt 2)
     = raise (AssertionError "Bad checksum!")
  /\ ~ error_identifies_triplet.
Proof.
  assert (H0 : first_bad [0xBE; 0xEF; 0x00; 0xBE; 0xEF; 0x92] 0).
  { split; [intros j Hj; lia|].
    exists 0xBE, 0xEF, 0x00. split; [reflexivity|]. vm_compute. discriminate. }
  assert (H1 : first_bad [0xBE; 0xEF; 0x92; 0xBE; 0xEF; 0x00] 1).
  { split.
    - intros j Hj. assert (j = 0%nat) as -> by lia. exists 0xBE, 0xEF. reflexivity.
    - exists 0xBE, 0xEF, 0x00. split; [reflexivity|]. vm_compute. discriminate. }
  split; [exact H0|]. split; [exact H1|].
  split; [reflexivity|]. split; [reflexivity|].
  intros [index_of H].
  pose proof (H _ 2%nat 0%nat (AssertionError "Bad checksum!") ltac:(lia) H0 eq_refl) as E0.
  pose proof (H _ 2%nat 1%nat (AssertionError "Bad checksum!") ltac:(lia) H1 eq_refl) as E1.
  congruence.
Qed.

(** C8. Encoding raises [struct.error] as soon as one value is above
    [0xFFFF], and succeeds when every value is a 16-bit word. *)
Theorem encode_fails_on_wide_word (words : list Z) :
  (Exists (fun w => w > 0xFFFF) words ->
   _bytes_for_checksummed_words words = raise StructError)
  /\ (Forall is_uint16 words ->
      exists bs : list Z, _bytes_for_checksummed_words words = ok bs).
Proof.
  split.
  - intros H. apply bytes_loop_not_uint16.
    eapply Exists_impl; [exact H|]. unfold is_uint16. intros w Hw. simpl in Hw. lia.
  - intros H. eexists. apply bytes_loop_uint16, H.
Qed.

Lemma encode_fails_on_wide_word_witness :
  _bytes_for_checksummed_words [0x0190; 0x10000; 7] = raise StructError
  /\ exists bs : list Z, _bytes_for_checksummed_words [0x0190; 0xFFFF; 7] = ok bs.
Proof.
  split.
  - apply (proj1 (encode_fails_on_wide_word [0x0190; 0x10000; 7])).
    right. left. lia.
  - apply (proj2 (encode_fails_on_wide_word [0x0190; 0xFFFF; 7])).
    repeat constructor; unfold is_uint16; lia.
Defined.

(** ** Readings *)

(** C9. [is_probably_valid] is false exactly on the power-on pair
    (400, 0); so it is false for (400, 0) and true for (450, 12). *)
Theorem is_probably_valid_spec (co2 voc : Z) :
  (is_probably_valid {| co2_ppm := co2; voc_ppb := voc |} = false
   <-> co2 = 400 /\ voc = 0)
  /\ is_probably_valid {| co2_ppm := 400; voc_ppb := 0 |} = false
  /\ is_probably_valid {| co2_ppm := 450; voc_ppb := 12 |} = true.
Proof.
  split; [|split; reflexivity].
  unfold is_probably_valid. simpl.
  destruct (Z.eqb_spec co2 400), (Z.eqb_spec voc 0); simpl; split; intros H;
    try reflexivity; try discriminate; lia.
Qed.

(** ** Command table *)

(** C7. The registry holds eight commands, the eight of the documented
    table with its values (opcode, capability requirement, parameter and
    response lengths in words, settle time), and none of them both takes
    parameters and returns a response. *)
Theorem command_table_exact :
  size _SGP30_CMDS = 8%nat
  /\ Forall (fun entry => (_SGP30_CMDS !! entry.1) ≫= describe = Some entry.2)
       documented_table
  /\ NoDup documented_table.*1
  /\ map_Forall (fun _ cmd => required_feature_set cmd = None
                             \/ required_feature_set cmd = Some 0x20) _SGP30_CMDS
  /\ map_Forall (fun _ cmd => parameter_length cmd = 0 \/ response_length cmd = 0)
       _SGP30_CMDS.
Proof.
  split; [vm_compute; reflexivity|].
  split; [repeat constructor; vm_compute; reflexivity|].
  split; [apply (bool_decide_unpack _); vm_compute; exact I|].
  split; apply map_Forall_to_list; vm_compute;
    repeat (constructor; [simpl; auto|]); constructor.
Qed.

(** ** Transactions *)

Section DriverFacts.

Variable bus : SMBus.

Lemma has_feature_set_false (self : SGP30) (required : Z) :
  chip_version self <> Some (Z.land required _SGP30_FEATURE_SET_BITMASK) ->
  _has_feature_set self (Some required) = false.
Proof.
  unfold _has_feature_set. intros H.
  destruct (chip_version self) as [v|]; [|reflexivity].
  destruct (Z.eqb_spec v (Z.land required _SGP30_FEATURE_SET_BITMASK)); congruence.
Qed.

(** The first statement of [_run_command] decides alone when the
    feature set is missing. *)
Lemma run_command_unsupported
      (self : SGP30) (cmd : SGP30Command) (param_bytes : option (list Z)) :
  _has_feature_set self (required_feature_set cmd) = false ->
  _run_command bus cmd param_bytes self = (self, raise unsupported_chip).
Proof.
  intros H. cbv beta iota zeta delta [_run_command st_bind st_get st_lift ok].
  now rewrite H.
Qed.

Lemma run_command_bad_count
      (self : SGP30) (cmd : SGP30Command) (pb : list Z) :
  _has_feature_set self (required_feature_set cmd) = true ->
  0 < parameter_length cmd ->
  Z.of_nat (length pb) <> parameter_length cmd ->
  _run_command bus cmd (Some pb) self = (self, raise invalid_parameter_count).
Proof.
  intros H Hpos Hne. apply Z.ltb_lt in Hpos. apply Z.eqb_neq in Hne.
  cbv beta iota zeta delta [_run_command st_bind st_get st_lift ok].
  rewrite H. cbv beta iota delta [py_assert ok]. rewrite Hpos.
  cbv beta iota. now rewrite Hne.
Qed.

Lemma run_command_ignores_parameters
      (self : SGP30) (cmd : SGP30Command) (pb : list Z) :
  parameter_length cmd <= 0 ->
  _run_command bus cmd (Some pb) self = _run_command bus cmd None self.
Proof.
  intros H. unfold _run_command.
  replace (0 <? parameter_length cmd) with false; [reflexivity|].
  symmetry. apply Z.ltb_ge. exact H.
Qed.

Lemma has_feature_set_unset (self : SGP30) (required : Z) :
  chip_version self = None -> _has_feature_set self (Some required) = false.
Proof. unfold _has_feature_set. now intros ->. Qed.

Lemma word_getter_unset (self : SGP30) (cmd_name : string) (cmd : SGP30Command)
      (required : Z) :
  cmds_getitem cmd_name = ok cmd ->
  parameter_length cmd = 0 -> response_length cmd mod 3 = 0 ->
  required_feature_set cmd = Some required ->
  chip_version self = None ->
  _run_word_getter bus cmd_name self = (self, raise unsupported_chip).
Proof.
  intros Hget Hp Hr Hreq Hnone.
  cbv beta iota zeta delta [_run_word_getter st_bind st_lift ok].
  rewrite Hget. cbv beta iota delta [ok].
  rewrite Hp, Hr. cbv beta iota delta [Z.eqb py_assert ok].
  rewrite run_command_unsupported; [reflexivity|].
  rewrite Hreq. now apply has_feature_set_unset.
Qed.

Lemma word_setter_unset (self : SGP30) (cmd_name : string) (cmd : SGP30Command)
      (required : Z) (words : list Z) :
  cmds_getitem cmd_name = ok cmd ->
  response_length cmd = 0 -> 0 < parameter_length cmd ->
  parameter_length cmd mod 3 = 0 ->
  required_feature_set cmd = Some required ->
  chip_version self = None ->
  _run_word_setter bus cmd_name words self
  = (self, raise match _bytes_for_checksummed_words words with
                 | inl e => e
                 | inr _ => unsupported_chip
                 end).
Proof.
  intros Hget Hr Hpos Hp Hreq Hnone.
  apply Z.ltb_lt in Hpos.
  cbv beta iota zeta delta [_run_word_setter st_bind st_lift ok].
  rewrite Hget. cbv beta iota delta [ok].
  rewrite Hr, Hpos, Hp. cbv beta iota delta [Z.eqb py_assert ok].
  destruct (_bytes_for_checksummed_words words) as [e|pb]; [reflexivity|].
  rewrite run_command_unsupported; [reflexivity|].
  rewrite Hreq. now apply has_feature_set_unset.
Qed.

End DriverFacts.

Lemma feature_mask_bits (n : Z) :
  Z.testbit _SGP30_FEATURE_SET_BITMASK n = true <-> 5 <= n <= 7.
Proof.
  split.
  - intros H. destruct (Z.ltb_spec n 0) as [Hneg|Hpos].
    { rewrite Z.testbit_neg_r in H by lia. discriminate. }
    destruct (Z.ltb_spec n 8) as [Hlt|Hge].
    + assert (Hn : n = 0 \/ n = 1 \/ n = 2 \/ n = 3 \/ n = 4 \/ 5 <= n <= 7) by lia.
      destruct Hn as [->|[->|[->|[->|[->|Hn]]]]]; try discriminate. exact Hn.
    + change _SGP30_FEATURE_SET_BITMASK with (Z.land 0xe0 (Z.ones 8)) in H.
      rewrite Z.land_spec, Z.ones_spec_high in H by lia.
      rewrite andb_false_r in H. discriminate.
  - intros H. assert (Hn : n = 5 \/ n = 6 \/ n = 7) by lia.
    destruct Hn as [->|[->| ->]]; reflexivity.
Qed.

(** C4. When a command names a required feature set and the driver's
    [chip_version] is not that value under the mask of bits 5 to 7,
    [_run_command] raises "Unsupported chip version for this command"
    and leaves the driver, and with it the log of bus calls, as it was. *)
Theorem capability_gate_before_io
        (bus : SMBus) (self : SGP30) (cmd : SGP30Command)
        (param_bytes : option (list Z)) (required : Z) :
  required_feature_set cmd = Some required ->
  chip_version self <> Some (Z.land required _SGP30_FEATURE_SET_BITMASK) ->
  snd (_run_command bus cmd param_bytes self)
  = raise (AssertionError "Unsupported chip version for this command")
  /\ fst (_run_command bus cmd param_bytes self) = self
  /\ io_log (fst (_run_command bus cmd param_bytes self)) = io_log self
  /\ (forall n : Z, Z.testbit _SGP30_FEATURE_SET_BITMASK n = true <-> 5 <= n <= 7).
Proof.
  intros Hreq Hne.
  rewrite run_command_unsupported
    by (rewrite Hreq; now apply has_feature_set_false).
  split; [reflexivity|]. split; [reflexivity|]. split; [reflexivity|].
  exact feature_mask_bits.
Qed.

Lemma capability_gate_before_io_witness :
  snd (_run_command quiet_bus
         (Build_SGP30Command [0x20; 0x08] (Some 0x0020) 0 6 12) None
         (set_chip_version 0x0040 (__init__ 1 0x58)))
  = raise (AssertionError "Unsupported chip version for this command")
  /\ fst (_run_command quiet_bus
            (Build_SGP30Command [0x20; 0x08] (Some 0x0020) 0 6 12) None
            (set_chip_version 0x0040 (__init__ 1 0x58)))
     = set_chip_version 0x0040 (__init__ 1 0x58)
  /\ io_log (fst (_run_command quiet_bus
                    (Build_SGP30Command [0x20; 0x08] (Some 0x0020) 0 6 12) None
                    (set_chip_version 0x0040 (__init__ 1 0x58))))
     = io_log (set_chip_version 0x0040 (__init__ 1 0x58))
  /\ (forall n : Z, Z.testbit _SGP30_FEATURE_SET_BITMASK n = true <-> 5 <= n <= 7).
Proof.
  apply (capability_gate_before_io quiet_bus
           (set_chip_version 0x0040 (__init__ 1 0x58))
           (Build_SGP30Command [0x20; 0x08] (Some 0x0020) 0 6 12) None 0x0020).
  - reflexivity.
  - simpl. discriminate.
Defined.

(** C5, as the code has it. For a command that takes parameters
    ([parameter_length] positive, in bytes, three per word), a supplied
    byte sequence of another length makes [_run_command] raise before
    any bus call: "Invalid number of parameter bytes for command" when
    the feature set is there, the feature-set error otherwise.  For a
    command that takes none, what is supplied is not looked at. *)
Theorem parameter_length_check
        (bus : SMBus) (self : SGP30) (cmd : SGP30Command) (pb : list Z) :
  (0 < parameter_length cmd ->
   Z.of_nat (length pb) <> parameter_length cmd ->
   _run_command bus cmd (Some pb) self
   = (self,
      raise (if _has_feature_set self (required_feature_set cmd)
             then AssertionError "Invalid number of parameter bytes for command"
             else AssertionError "Unsupported chip version for this command")))
  /\ (parameter_length cmd <= 0 ->
      _run_command bus cmd (Some pb) self = _run_command bus cmd None self).
Proof.
  split.
  - intros Hpos Hne.
    destruct (_has_feature_set self (required_feature_set cmd)) eqn:E.
    + now apply run_command_bad_count.
    + now apply run_command_unsupported.
  - apply run_command_ignores_parameters.
Qed.

Lemma parameter_length_check_witness :
  _run_command quiet_bus (Build_SGP30Command [0x20; 0x61] (Some 0x20) 3 0 10)
    (Some [0; 0; 0x81; 0; 0; 0x81]) identified_driver
  = (identified_driver,
     raise (AssertionError "Invalid number of parameter bytes for command"))
  /\ _run_command quiet_bus (Build_SGP30Command [0x36; 0x82] None 0 9 1)
       (Some [0; 0; 0x81]) identified_driver
     = _run_command quiet_bus (Build_SGP30Command [0x36; 0x82] None 0 9 1)
         None identified_driver.
Proof.
  split.
  - apply (proj1 (parameter_length_check quiet_bus identified_driver
                    (Build_SGP30Command [0x20; 0x61] (Some 0x20) 3 0 10)
                    [0; 0; 0x81; 0; 0; 0x81])).
    + simpl. lia.
    + simpl. lia.
  - apply (proj2 (parameter_length_check quiet_bus identified_driver
                    (Build_SGP30Command [0x36; 0x82] None 0 9 1) [0; 0; 0x81])).
    simpl. lia.
Defined.

(** C5, as stated, fails: [get_serial_number] takes no parameter word, one
    word (three bytes) is supplied, and the command runs its whole bus
    transaction and returns the bytes read. *)
Lemma surplus_parameters_not_rejected :
  parameter_length (Build_SGP30Command [0x36; 0x82] None 0 9 1) = 0
  /\ _run_command quiet_bus (Build_SGP30Command [0x36; 0x82] None 0 9 1)
       (Some [0; 0; 0x81]) (__init__ 1 0x58)
     = ({| i2c_bus_number := 1;
           i2c_address := 0x58;
           _raw_feature_set := None;
           chip_version := None;
           serial_number := None;
           io_log := [BusWrite 0x58 0x36 [0x82]; Sleep 1; BusRead 0x58 0 9] |},
        ok (Some [0; 0; 0; 0; 0; 0; 0; 0; 0])).
Proof. split; reflexivity. Qed.

(** ** Measurement operations *)

(** C6, as the code has it. The driver keeps no ready flag and has no
    error of its own for "not ready".  While [chip_version] is unset, as
    [__init__] leaves it and [close] keeps it, each of the five
    measurement operations raises before any bus call and changes
    nothing: "Unsupported chip version for this command", or for the two
    setters the error of the encoding when a word does not encode. *)
Theorem measurement_needs_chip_version
        (bus : SMBus) (self : SGP30) (co2_baseline voc_baseline humidity : Z) :
  chip_version self = None ->
  measure_air_quality bus self
  = (self, raise (AssertionError "Unsupported chip version for this command"))
  /\ get_baseline bus self
     = (self, raise (AssertionError "Unsupported chip version for this command"))
  /\ measure_raw_signals bus self
     = (self, raise (AssertionError "Unsupported chip version for this command"))
  /\ set_baseline bus co2_baseline voc_baseline self
     = (self,
        raise match _bytes_for_checksummed_words [co2_baseline; voc_baseline] with
              | inl e => e
              | inr _ => AssertionError "Unsupported chip version for this command"
              end)
  /\ set_humidity bus humidity self
     = (self,
        raise match _bytes_for_checksummed_words [humidity] with
              | inl e => e
              | inr _ => AssertionError "Unsupported chip version for this command"
              end)
  /\ (forall bus_number address : Z, chip_version (__init__ bus_number address) = None)
  /\ chip_version (fst (close bus self)) = chip_version self.
Proof.
  intros Hnone.
  assert (Hget : forall name cmd,
             cmds_getitem name = ok cmd ->
             parameter_length cmd = 0 -> response_length cmd mod 3 = 0 ->
             required_feature_set cmd = Some 0x20 ->
             _run_word_getter bus name self = (self, raise unsupported_chip)).
  { intros name cmd H1 H2 H3 H4. now apply (word_getter_unset bus self name cmd 0x20). }
  assert (Hset : forall name cmd words,
             cmds_getitem name = ok cmd ->
             response_length cmd = 0 -> 0 < parameter_length cmd ->
             parameter_length cmd mod 3 = 0 ->
             required_feature_set cmd = Some 0x20 ->
             _run_word_setter bus name words self
             = (self, raise match _bytes_for_checksummed_words words with
                            | inl e => e
                            | inr _ => unsupported_chip
                            end)).
  { intros name cmd words H1 H2 H3 H4 H5.
    now apply (word_setter_unset bus self name cmd 0x20). }
  split.
  { unfold measure_air_quality, st_bind.
    now rewrite (Hget "measure_air_quality" _ eq_refl eq_refl eq_refl eq_refl). }
  split.
  { unfold get_baseline, st_bind.
    now rewrite (Hget "get_baseline" _ eq_refl eq_refl eq_refl eq_refl). }
  split.
  { unfold measure_raw_signals.
    now rewrite (Hget "measure_raw_signals" _ eq_refl eq_refl eq_refl eq_refl). }
  split.
  { unfold set_baseline.
    now rewrite (Hset "set_baseline" _ _ eq_refl eq_refl eq_refl eq_refl eq_refl). }
  split.
  { unfold set_humidity.
    now rewrite (Hset "set_humidity" _ _ eq_refl eq_refl eq_refl eq_refl eq_refl). }
  split; reflexivity.
Qed.

Lemma measurement_needs_chip_version_witness :
  measure_air_quality quiet_bus (__init__ 1 0x58)
  = (__init__ 1 0x58,
     raise (AssertionError "Unsupported chip version for this command"))
  /\ set_humidity quiet_bus 0x10000 (__init__ 1 0x58)
     = (__init__ 1 0x58, raise StructError).
Proof.
  pose proof (measurement_needs_chip_version quiet_bus (__init__ 1 0x58)
                400 0 0x10000 eq_refl) as H.
  split; [apply H|]. apply (proj1 (proj2 (proj2 (proj2 (proj2 H))))).
Defined.

(** C6, as stated, fails: before [open], and after [close], the exception
    of a measurement operation depends on the operation and its
    argument.  [measure_air_quality] raises the feature-set assertion and
    [set_humidity 0x10000] the [struct.error] of the encoder, so no one
    exception plays the part of a not-ready error. *)
Lemma not_ready_error_depends_on_argument :
  measure_air_quality quiet_bus (__init__ 1 0x58)
  = (__init__ 1 0x58,
     raise (AssertionError "Unsupported chip version for this command"))
  /\ set_humidity quiet_bus 0x10000 (__init__ 1 0x58)
     = (__init__ 1 0x58, raise StructError)
  /\ snd (measure_air_quality quiet_bus (fst (close quiet_bus (__init__ 1 0x58))))
     = raise (AssertionError "Unsupported chip version for this command")
  /\ snd (set_humidity quiet_bus 0x10000 (fst (close quiet_bus (__init__ 1 0x58))))
     = raise StructError
  /\ ~ fails_with_not_ready_error.
Proof.
  split; [reflexivity|]. split; [reflexivity|].
  split; [reflexivity|]. split; [reflexivity|].
  intros [not_ready H].
  destruct (H quiet_bus 1 0x58 400 0 0x10000 (__init__ 1 0x58) (or_introl eq_refl))
    as (Hget & _ & _ & _ & Hset).
  change (snd (measure_air_quality quiet_bus (__init__ 1 0x58)))
    with (@raise AirQuality
            (AssertionError "Unsupported chip version for this command")) in Hget.
  change (snd (set_humidity quiet_bus 0x10000 (__init__ 1 0x58)))
    with (@raise unit StructError) in Hset.
  unfold raise in Hget, Hset. congruence.
Qed.


(** * Further properties of the code *)

(** ** Decoding *)

Lemma triplet_at_as_drop (data : list Z) (i : nat) :
  triplet_at data i
  = match drop (3 * i) data with
    | b0 :: b1 :: c :: _ => Some (b0, b1, c)
    | _ => None
    end.
Proof.
  unfold triplet_at.
  rewrite <- (Nat.add_0_r (3 * i)) at 1.
  rewrite <- !lookup_drop.
  destruct (drop (3 * i) data) as [|b0 [|b1 [|c rest]]]; reflexivity.
Qed.

Lemma read_word_ok_inv (data : list Z) (i : nat) (w : Z) :
  _read_checksummed_word data ((2 + 1) * i) = ok w ->
  exists b0 b1 rest,
    drop (3 * i) data = b0 :: b1 :: _crc [b0; b1] :: rest /\ w = b0 * 256 + b1.
Proof.
  unfold _read_checksummed_word, struct_unpack_from_HB.
  change ((2 + 1) * i)%nat with (3 * i)%nat.
  destruct (drop (3 * i) data) as [|b0 [|b1 [|c rest]]]; try discriminate.
  simpl. destruct (Z.eqb_spec c (_crc [b0; b1])) as [->|]; [|discriminate].
  intros [= <-]. eauto.
Qed.

Lemma read_word_short (data : list Z) (i : nat) :
  (length data < 3 * i + 3)%nat ->
  _read_checksummed_word data ((2 + 1) * i) = raise StructError.
Proof.
  intros H. unfold _read_checksummed_word, struct_unpack_from_HB.
  change ((2 + 1) * i)%nat with (3 * i)%nat.
  pose proof (length_drop data (3 * i)) as Hlen.
  destruct (drop (3 * i) data) as [|b0 [|b1 [|c rest]]]; try reflexivity.
  simpl in Hlen. lia.
Qed.

(** What a completed run of the loop says about the buffer. *)
Lemma read_words_loop_inv (data : list Z) (n k : nat) (res ws : list Z) :
  read_words_loop data (seq k n) res = ok ws ->
  exists ws' : list Z,
    ws = res ++ ws'
    /\ length ws' = n
    /\ (0 < n -> 3 * (k + n) <= length data)%nat
    /\ (forall i, (i < n)%nat ->
          exists b0 b1,
            triplet_at data (k + i) = Some (b0, b1, _crc [b0; b1])
            /\ ws' !! i = Some (b0 * 256 + b1)).
Proof.
  revert k res. induction n as [|n IH]; intros k res H.
  - injection H as <-. exists []. rewrite app_nil_r.
    repeat split; [lia|intros i Hi; lia].
  - cbn [seq read_words_loop] in H.
    destruct (_read_checksummed_word data ((2 + 1) * k)) as [e|w] eqn:Hw;
      [discriminate|].
    cbn [rbind] in H.
    destruct (IH _ _ H) as (ws' & -> & Hlen & Hsize & Hall).
    destruct (read_word_ok_inv _ _ _ Hw) as (b0 & b1 & rest & Hdrop & ->).
    exists ((b0 * 256 + b1) :: ws'). split; [now rewrite <- app_assoc|].
    split; [simpl; lia|]. split.
    + intros _. destruct n as [|n].
      * pose proof (length_drop data (3 * k)) as Hd. rewrite Hdrop in Hd.
        simpl in Hd. lia.
      * specialize (Hsize ltac:(lia)). lia.
    + intros [|i] Hi.
      * exists b0, b1. rewrite Nat.add_0_r, triplet_at_as_drop, Hdrop. now split.
      * destruct (Hall i ltac:(lia)) as (c0 & c1 & Ht & Hl).
        exists c0, c1. replace (k + S i)%nat with (S k + i)%nat by lia. now split.
Qed.

(** X1. A decoding that returns has read [count] whole triplets with
    agreeing checksums, and returns one big-endian word per triplet. *)
Theorem decode_success_sound (data ws : list Z) (count : Z) :
  _read_checksummed_words data (PyInt count) = ok ws ->
  length ws = Z.to_nat count
  /\ (0 < count -> 3 * count <= Z.of_nat (length data))
  /\ (forall i, (i < Z.to_nat count)%nat ->
        exists b0 b1,
          triplet_at data i = Some (b0, b1, _crc [b0; b1])
          /\ ws !! i = Some (b0 * 256 + b1)).
Proof.
  unfold _read_checksummed_words, py_range. cbn [rbind ok]. intros H.
  destruct (read_words_loop_inv _ _ _ _ _ H) as (ws' & -> & Hlen & Hsize & Hall).
  split; [exact Hlen|]. split.
  - intros Hpos. specialize (Hsize ltac:(lia)). lia.
  - exact Hall.
Qed.

Lemma decode_success_sound_witness :
  length [0xBEEF; 0] = Z.to_nat 2
  /\ (0 < 2 -> 3 * 2 <= Z.of_nat (length [0xBE; 0xEF; 0x92; 0; 0; 0x81; 9]))
  /\ (forall i, (i < Z.to_nat 2)%nat ->
        exists b0 b1,
          triplet_at [0xBE; 0xEF; 0x92; 0; 0; 0x81; 9] i
          = Some (b0, b1, _crc [b0; b1])
          /\ [0xBEEF; 0] !! i = Some (b0 * 256 + b1)).
Proof.
  apply (decode_success_sound [0xBE; 0xEF; 0x92; 0; 0; 0x81; 9] [0xBEEF; 0] 2).
  reflexivity.
Defined.

Lemma wire_triplet_bytes (b0 b1 : Z) :
  is_byte b0 -> is_byte b1 ->
  is_uint16 (b0 * 256 + b1)
  /\ wire_triplet (b0 * 256 + b1) = [b0; b1; _crc [b0; b1]].
Proof.
  unfold is_byte, is_uint16, wire_triplet. intros H0 H1.
  assert (Hd : (b0 * 256 + b1) / 256 = b0)
    by (rewrite Z.div_add_l by lia; rewrite Z.div_small by lia; lia).
  assert (Hm : (b0 * 256 + b1) mod 256 = b1)
    by (rewrite Z.add_comm, Z.mod_add by lia; apply Z.mod_small; lia).
  rewrite Hd, Hm. split; [lia|reflexivity].
Qed.

Lemma read_words_loop_reencode (data : list Z) (n k : nat) (res ws : list Z) :
  Forall is_byte data ->
  read_words_loop data (seq k n) res = ok ws ->
  exists ws' : list Z,
    ws = res ++ ws'
    /\ Forall is_uint16 ws'
    /\ concat (wire_triplet <$> ws') = take (3 * n) (drop (3 * k) data).
Proof.
  intros Hbytes. revert k res. induction n as [|n IH]; intros k res H.
  - injection H as <-. exists []. rewrite app_nil_r. repeat split. constructor.
  - cbn [seq read_words_loop] in H.
    destruct (_read_checksummed_word data ((2 + 1) * k)) as [e|w] eqn:Hw;
      [discriminate|].
    cbn [rbind] in H.
    destruct (IH _ _ H) as (ws' & -> & Hws' & Hcat).
    destruct (read_word_ok_inv _ _ _ Hw) as (b0 & b1 & rest & Hdrop & ->).
    assert (Hb : Forall is_byte (drop (3 * k) data)) by now apply Forall_drop.
    rewrite Hdrop in Hb.
    apply Forall_cons in Hb as [Hb0 Hb]. apply Forall_cons in Hb as [Hb1 _].
    destruct (wire_triplet_bytes b0 b1 Hb0 Hb1) as [Hu Hwire].
    exists ((b0 * 256 + b1) :: ws'). split; [now rewrite <- app_assoc|].
    split; [now constructor|].
    cbn [fmap list_fmap concat]. rewrite Hwire, Hcat, Hdrop.
    replace (3 * S n)%nat with (S (S (S (3 * n)))) by lia. cbn [take app].
    do 3 f_equal.
    replace (3 * S k)%nat with (3 * k + 3)%nat by lia.
    rewrite <- drop_drop, Hdrop. reflexivity.
Qed.

(** X2. Decoding then encoding gives back the bytes that were read: on a
    buffer of bytes, the words of a decoding that returns encode to the
    first [3 * count] bytes of the buffer. *)
Theorem decode_then_encode (data ws : list Z) (count : Z) :
  Forall is_byte data ->
  _read_checksummed_words data (PyInt count) = ok ws ->
  _bytes_for_checksummed_words ws = ok (take (3 * Z.to_nat count) data).
Proof.
  intros Hbytes. unfold _read_checksummed_words, py_range. cbn [rbind ok].
  intros H.
  destruct (read_words_loop_reencode _ _ _ _ _ Hbytes H) as (ws' & -> & Hu & Hcat).
  change (drop (3 * 0) data) with data in Hcat. cbn [app].
  unfold _bytes_for_checksummed_words. rewrite bytes_loop_uint16 by exact Hu.
  cbn [app]. now rewrite Hcat.
Qed.

Lemma decode_then_encode_witness :
  _bytes_for_checksummed_words [0xBEEF; 0]
  = ok (take (3 * Z.to_nat 2) [0xBE; 0xEF; 0x92; 0; 0; 0x81; 9]).
Proof.
  apply (decode_then_encode [0xBE; 0xEF; 0x92; 0; 0; 0x81; 9] [0xBEEF; 0] 2).
  - repeat constructor; unfold is_byte; lia.
  - reflexivity.
Defined.

Lemma read_words_loop_first_failure
      (data : list Z) (i n k : nat) (res : list Z) (e : exn) :
  (forall j, (j < i)%nat -> triplet_good data j) ->
  _read_checksummed_word data ((2 + 1) * i) = raise e ->
  (k <= i < k + n)%nat ->
  read_words_loop data (seq k n) res = raise e.
Proof.
  intros Hgood Hfail. revert k res.
  induction n as [|n IH]; intros k res Hk; [lia|].
  cbn [seq read_words_loop].
  destruct (decide (k = i)) as [->|Hne].
  - now rewrite Hfail.
  - destruct (read_word_good data k) as [w Hw]; [apply Hgood; lia|].
    rewrite Hw. cbn [rbind ok]. apply IH. lia.
Qed.

(** X3. A response cut short raises [struct.error]: when the buffer has
    fewer than [3 * count] bytes and every whole triplet in it carries an
    agreeing checksum, decoding fails at the first incomplete triplet. *)
Theorem decode_truncated_buffer (data : list Z) (count : nat) :
  (length data < 3 * count)%nat ->
  (forall j, (3 * j + 3 <= length data)%nat -> triplet_good data j) ->
  _read_checksummed_words data (PyInt (Z.of_nat count)) = raise StructError.
Proof.
  intros Hshort Hgood.
  unfold _read_checksummed_words, py_range. cbn [rbind ok]. rewrite Nat2Z.id.
  apply (read_words_loop_first_failure data (length data / 3)).
  - intros j Hj. apply Hgood.
    pose proof (Nat.div_mod_eq (length data) 3). lia.
  - apply read_word_short.
    pose proof (Nat.div_mod_eq (length data) 3).
    pose proof (Nat.mod_upper_bound (length data) 3). lia.
  - pose proof (Nat.div_mod_eq (length data) 3). lia.
Qed.

Lemma decode_truncated_buffer_witness :
  _read_checksummed_words [0xBE; 0xEF; 0x92; 0; 0] (PyInt (Z.of_nat 2))
  = raise StructError.
Proof.
  apply (decode_truncated_buffer [0xBE; 0xEF; 0x92; 0; 0] 2).
  - simpl. lia.
  - intros j Hj. simpl in Hj. assert (j = 0%nat) as -> by lia.
    exists 0xBE, 0xEF. reflexivity.
Defined.

Lemma read_word_app (data rest : list Z) (i : nat) :
  (3 * i + 3 <= length data)%nat ->
  _read_checksummed_word (data ++ rest) ((2 + 1) * i)
  = _read_checksummed_word data ((2 + 1) * i).
Proof.
  intros H. unfold _read_checksummed_word, struct_unpack_from_HB.
  change ((2 + 1) * i)%nat with (3 * i)%nat.
  rewrite drop_app_le by lia.
  pose proof (length_drop data (3 * i)) as Hlen.
  destruct (drop (3 * i) data) as [|b0 [|b1 [|c tl]]]; simpl in Hlen; try lia.
  reflexivity.
Qed.

Lemma read_words_loop_app (data rest : list Z) (n k : nat) (res : list Z) :
  (3 * (k + n) <= length data)%nat ->
  read_words_loop (data ++ rest) (seq k n) res = read_words_loop data (seq k n) res.
Proof.
  revert k res. induction n as [|n IH]; intros k res H; [reflexivity|].
  cbn [seq read_words_loop]. rewrite read_word_app by lia.
  destruct (_read_checksummed_word data ((2 + 1) * k)); [reflexivity|].
  cbn [rbind]. apply IH. lia.
Qed.

(** X4. Bytes after the [3 * count] the decoder needs are never looked
    at: appending anything to a buffer that is long enough changes
    neither the words returned nor the error raised. *)
Theorem decode_ignores_trailing_bytes (data rest : list Z) (count : Z) :
  3 * count <= Z.of_nat (length data) ->
  _read_checksummed_words (data ++ rest) (PyInt count)
  = _read_checksummed_words data (PyInt count).
Proof.
  intros H. unfold _read_checksummed_words, py_range. cbn [rbind ok].
  apply read_words_loop_app. lia.
Qed.

Lemma decode_ignores_trailing_bytes_witness :
  _read_checksummed_words ([0xBE; 0xEF; 0x92; 0; 0; 0x80] ++ [1; 2; 3]) (PyInt 2)
  = _read_checksummed_words [0xBE; 0xEF; 0x92; 0; 0; 0x80] (PyInt 2).
Proof.
  apply (decode_ignores_trailing_bytes [0xBE; 0xEF; 0x92; 0; 0; 0x80] [1; 2; 3] 2).
  simpl. lia.
Defined.

(** ** Encoding *)

Lemma bytes_for_words_cases (words : list Z) :
  _bytes_for_checksummed_words words
  = if decide (Forall is_uint16 words)
    then ok (concat (wire_triplet <$> words))
    else raise StructError.
Proof.
  unfold _bytes_for_checksummed_words. destruct (decide (Forall is_uint16 words)) as [H|H].
  - now rewrite bytes_loop_uint16.
  - apply bytes_loop_not_uint16.
    apply not_Forall_Exists in H; [exact H|apply _].
Qed.

(** X5. The encoder has two outcomes only: the wire triplets of all the
    words when each is in [0 .. 0xFFFF], and [struct.error] otherwise
    (a negative value is refused like one that is too large). *)
Theorem encode_outcome (words : list Z) :
  _bytes_for_checksummed_words words
  = if decide (Forall is_uint16 words)
    then ok (concat (wire_triplet <$> words))
    else raise StructError.
Proof. exact (bytes_for_words_cases words). Qed.

(** X6. Encoding distributes over concatenation: the bytes of [W1 ++ W2]
    are the bytes of [W1] followed by those of [W2], and the whole fails
    when either part fails. *)
Theorem encode_app (W1 W2 : list Z) :
  _bytes_for_checksummed_words (W1 ++ W2)
  = (bs1 <- _bytes_for_checksummed_words W1 ;;
     bs2 <- _bytes_for_checksummed_words W2 ;;
     ok (bs1 ++ bs2)).
Proof.
  rewrite !bytes_for_words_cases.
  destruct (decide (Forall is_uint16 W1)) as [H1|H1];
    destruct (decide (Forall is_uint16 W2)) as [H2|H2];
    destruct (decide (Forall is_uint16 (W1 ++ W2))) as [H|H];
    cbn [rbind ok raise]; try reflexivity;
    try (apply Forall_app in H as [? ?]; contradiction).
  - now rewrite fmap_app, concat_app.
  - exfalso. apply H. now apply Forall_app.
Qed.

(** X7. Whatever the encoder returns is a sequence of bytes. *)
Theorem encode_yields_bytes (words bs : list Z) :
  _bytes_for_checksummed_words words = ok bs -> Forall is_byte bs.
Proof.
  rewrite bytes_for_words_cases.
  destruct (decide (Forall is_uint16 words)) as [H|H]; [|discriminate].
  intros [= <-]. induction H as [|w words Hw _ IH]; [constructor|].
  cbn [fmap list_fmap concat]. unfold wire_triplet at 1. cbn [app].
  unfold is_uint16 in Hw.
  repeat (apply List.Forall_cons); try exact IH; unfold is_byte.
  - split; [apply Z.div_pos; lia|apply Z.div_lt_upper_bound; lia].
  - apply Z.mod_pos_bound. lia.
  - apply crc_range.
Qed.

Lemma encode_yields_bytes_witness :
  Forall is_byte [0xBE; 0xEF; 0x92; 0; 0; 0x81].
Proof.
  apply (encode_yields_bytes [0xBEEF; 0] [0xBE; 0xEF; 0x92; 0; 0; 0x81]).
  reflexivity.
Defined.

(** X8. The encoder is injective: two word sequences with the same
    encoding are the same sequence. *)
Theorem encode_injective (W1 W2 bs : list Z) :
  _bytes_for_checksummed_words W1 = ok bs ->
  _bytes_for_checksummed_words W2 = ok bs ->
  W1 = W2.
Proof.
  rewrite !bytes_for_words_cases.
  destruct (decide (Forall is_uint16 W1)) as [H1|H1]; [|discriminate].
  destruct (decide (Forall is_uint16 W2)) as [H2|H2]; [|discriminate].
  intros [= <-] [= E].
  assert (Hlen : length W1 = length W2).
  { pose proof (length_wire W1) as L1. pose proof (length_wire W2) as L2.
    rewrite E in L2. lia. }
  pose proof (read_words_loop_wire W1 [] [] [] 0 eq_refl) as R1.
  pose proof (read_words_loop_wire W2 [] [] [] 0 eq_refl) as R2.
  rewrite app_nil_r in R1, R2. cbn [app] in R1, R2.
  rewrite E, <- Hlen, R1 in R2. injection R2 as ->. reflexivity.
Qed.

Lemma encode_injective_witness : [0xBEEF; 0] = [0xBEEF; 0].
Proof.
  apply (encode_injective [0xBEEF; 0] [0xBEEF; 0] [0xBE; 0xEF; 0x92; 0; 0; 0x81]);
    reflexivity.
Defined.

(** ** The checksum is linear *)

Ltac xor_bits :=
  apply Z.bits_inj'; intros ?n _;
  rewrite ?Z.lxor_spec, ?Z.land_spec, ?Z.lxor_spec;
  repeat match goal with
         | |- context [Z.testbit ?a ?n] => destruct (Z.testbit a n)
         end;
  reflexivity.

Lemma reference_shift_lxor (x y : Z) :
  Reference.shift (Z.lxor x y) = Z.lxor (Reference.shift x) (Reference.shift y).
Proof.
  unfold Reference.shift, Reference.high_bit.
  rewrite Z.lxor_spec, Z.shiftl_lxor.
  destruct (Z.testbit x 7), (Z.testbit y 7); cbn [xorb]; xor_bits.
Qed.

Lemma reference_iter_lxor (n : nat) (x y : Z) :
  Nat.iter n Reference.shift (Z.lxor x y)
  = Z.lxor (Nat.iter n Reference.shift x) (Nat.iter n Reference.shift y).
Proof.
  induction n as [|n IH]; [reflexivity|].
  rewrite !Nat.iter_succ, IH. apply reference_shift_lxor.
Qed.

Lemma reference_absorb_lxor (a s x e : Z) :
  Reference.absorb (Z.lxor a s) (Z.lxor x e)
  = Z.lxor (Reference.absorb a x) (Reference.absorb s e).
Proof.
  unfold Reference.absorb. rewrite <- reference_iter_lxor. f_equal. xor_bits.
Qed.

Lemma reference_fold_lxor (xs es : list Z) (a s : Z) :
  length xs = length es ->
  fold_left Reference.absorb (zip_with Z.lxor xs es) (Z.lxor a s)
  = Z.lxor (fold_left Reference.absorb xs a) (fold_left Reference.absorb es s).
Proof.
  revert es a s. induction xs as [|x xs IH]; intros [|e es] a s Hlen;
    try discriminate; [reflexivity|].
  cbn [zip_with fold_left]. rewrite reference_absorb_lxor. apply IH.
  now injection Hlen.
Qed.

Lemma crc_from_reference (init : Z) (data : list Z) :
  crc_from init data = Z.land (fold_left Reference.absorb data init) 0xFF.
Proof. unfold crc_from. now apply crc_fold_reference. Qed.

Lemma crc_zip_lxor (xs es : list Z) :
  length xs = length es ->
  _crc (zip_with Z.lxor xs es) = Z.lxor (_crc xs) (crc_from 0 es).
Proof.
  intros Hlen. change (_crc ?d) with (crc_from _SGP30_CRC_INIT d).
  rewrite !crc_from_reference.
  change _SGP30_CRC_INIT with (Z.lxor 0xFF 0) at 1.
  rewrite (reference_fold_lxor xs es 0xFF 0 Hlen).
  apply land_lxor_distr.
Qed.

(** X9. The checksum is affine over XOR: corrupting a message by an error
    pattern of the same length changes its checksum by the checksum of
    the pattern computed from a zero accumulator, whatever the message. *)
Theorem crc_affine (xs es : list Z) :
  length xs = length es ->
  _crc (zip_with Z.lxor xs es) = Z.lxor (_crc xs) (crc_from 0 es).
Proof. exact (crc_zip_lxor xs es). Qed.

Lemma crc_affine_witness :
  _crc (zip_with Z.lxor [0xBE; 0xEF] [0x01; 0x80])
  = Z.lxor (_crc [0xBE; 0xEF]) (crc_from 0 [0x01; 0x80]).
Proof. apply (crc_affine [0xBE; 0xEF] [0x01; 0x80]). reflexivity. Defined.

Lemma crc_single_bit_word (b0 b1 k : Z) :
  0 <= k < 8 ->
  _crc [Z.lxor b0 (2 ^ k); b1] <> _crc [b0; b1]
  /\ _crc [b0; Z.lxor b1 (2 ^ k)] <> _crc [b0; b1].
Proof.
  intros Hk.
  assert (E0 : _crc [Z.lxor b0 (2 ^ k); b1]
               = Z.lxor (_crc [b0; b1]) (crc_from 0 [2 ^ k; 0])).
  { rewrite <- (crc_zip_lxor [b0; b1] [2 ^ k; 0] eq_refl).
    cbn [zip_with]. now rewrite Z.lxor_0_r. }
  assert (E1 : _crc [b0; Z.lxor b1 (2 ^ k)]
               = Z.lxor (_crc [b0; b1]) (crc_from 0 [0; 2 ^ k])).
  { rewrite <- (crc_zip_lxor [b0; b1] [0; 2 ^ k] eq_refl).
    cbn [zip_with]. now rewrite Z.lxor_0_r. }
  rewrite E0, E1.
  assert (Hcases : k = 0 \/ k = 1 \/ k = 2 \/ k = 3 \/ k = 4 \/ k = 5 \/ k = 6 \/ k = 7)
    by lia.
  split; apply lxor_changes;
    destruct Hcases as [->|[->|[->|[->|[->|[->|[->| ->]]]]]]];
    vm_compute; discriminate.
Qed.

Lemma first_bad_flip_data (words : list Z) (j p : nat) (k : Z) :
  (j < length words)%nat -> (p < 2)%nat -> 0 <= k < 8 ->
  first_bad (flip_bit (3 * j + p) k (concat (wire_triplet <$> words))) j.
Proof.
  intros Hj Hp Hk. unfold flip_bit. split.
  - intros j' Hj'.
    destruct (lookup_lt_is_Some_2 words j') as [w Hw]; [lia|].
    exists (w / 256), (w mod 256).
    rewrite <- (triplet_at_wire _ _ _ Hw). unfold triplet_at.
    rewrite !list_lookup_alter_ne by lia. reflexivity.
  - destruct (lookup_lt_is_Some_2 words j Hj) as [w Hw].
    pose proof (triplet_at_wire _ _ _ Hw) as Ht. unfold triplet_at in Ht.
    destruct (_ !! (3 * j)%nat) as [x0|] eqn:E0; [|discriminate].
    destruct (_ !! (3 * j + 1)%nat) as [x1|] eqn:E1; [|discriminate].
    destruct (_ !! (3 * j + 2)%nat) as [x2|] eqn:E2; [|discriminate].
    injection Ht as -> -> ->.
    destruct (crc_single_bit_word (w / 256) (w mod 256) k Hk) as [H0 H1].
    assert (Hp' : p = 0%nat \/ p = 1%nat) by lia.
    destruct Hp' as [-> | ->].
    + exists (Z.lxor (w / 256) (2 ^ k)), (w mod 256), (_crc [w / 256; w mod 256]).
      unfold triplet_at. rewrite Nat.add_0_r.
      rewrite list_lookup_alter_eq, !list_lookup_alter_ne by lia.
      rewrite E0, E1, E2. split; [reflexivity|].
      intros E. now apply H0.
    + exists (w / 256), (Z.lxor (w mod 256) (2 ^ k)), (_crc [w / 256; w mod 256]).
      unfold triplet_at.
      rewrite list_lookup_alter_eq, !list_lookup_alter_ne by lia.
      rewrite E0, E1, E2. split; [reflexivity|].
      intros E. now apply H1.
Qed.

(** X10. Every single-bit corruption of an encoded buffer is detected:
    flipping one bit of any one byte, data or checksum, makes the
    decoder raise "Bad checksum!". *)
Theorem decode_detects_single_bit_flip (W : list Z) (pos : nat) (k : Z) :
  Forall is_uint16 W -> (pos < 3 * length W)%nat -> 0 <= k < 8 ->
  exists bs : list Z,
    _bytes_for_checksummed_words W = ok bs
    /\ _read_checksummed_words (flip_bit pos k bs) (PyInt (Z.of_nat (length W)))
       = raise (AssertionError "Bad checksum!").
Proof.
  intros HW Hpos Hk. exists (concat (wire_triplet <$> W)). split.
  { unfold _bytes_for_checksummed_words. now rewrite bytes_loop_uint16. }
  unfold _read_checksummed_words, py_range. cbn [rbind ok]. rewrite Nat2Z.id.
  pose proof (Nat.div_mod_eq pos 3) as Hdm.
  pose proof (Nat.mod_upper_bound pos 3 ltac:(lia)) as Hm.
  apply (read_words_loop_first_bad _ (pos / 3)); [|lia].
  rewrite Hdm at 1.
  destruct (decide (pos mod 3 = 2)%nat) as [->|Hne].
  - apply first_bad_flip; lia.
  - apply first_bad_flip_data; lia.
Qed.

Lemma decode_detects_single_bit_flip_witness :
  exists bs : list Z,
    _bytes_for_checksummed_words [0xBEEF; 0x0190] = ok bs
    /\ _read_checksummed_words (flip_bit 3 6 bs) (PyInt 2)
       = raise (AssertionError "Bad checksum!").
Proof.
  apply (decode_detects_single_bit_flip [0xBEEF; 0x0190] 3 6).
  - repeat constructor; unfold is_uint16; lia.
  - simpl. lia.
  - lia.
Defined.


(** ** One command on the bus *)

Lemma extend_log_nil (self : SGP30) : extend_log [] self = self.
Proof. destruct self. unfold extend_log. simpl. now rewrite app_nil_r. Qed.

Lemma log_event_extend (ev : io_event) (evs : list io_event) (self : SGP30) :
  log_event ev (extend_log evs self) = extend_log (evs ++ [ev]) self.
Proof. unfold log_event, extend_log. simpl. now rewrite app_assoc. Qed.

Lemma extend_log_extend (evs1 evs2 : list io_event) (self : SGP30) :
  extend_log evs2 (extend_log evs1 self) = extend_log (evs1 ++ evs2) self.
Proof. unfold extend_log. simpl. now rewrite app_assoc. Qed.

Lemma log_event_as_extend (ev : io_event) (self : SGP30) :
  log_event ev self = extend_log [ev] self.
Proof. reflexivity. Qed.

Lemma st_bind_step {A B} (m : M A) (k : A -> M B) (self self' : SGP30) (r : result A) :
  m self = (self', r) ->
  st_bind m k self = match r with
                     | inl e => (self', inl e)
                     | inr a => k a self'
                     end.
Proof. intros H. unfold st_bind. now rewrite H. Qed.

Section CommandFacts.

Variable bus : SMBus.

Lemma write_bytes_cons (cmd_byte : Z) (arg_bytes : list Z) (self : SGP30) :
  __write_bytes bus (cmd_byte :: arg_bytes) self
  = (extend_log [BusWrite (i2c_address self) cmd_byte arg_bytes] self,
     of_status (write_i2c_block_data bus (io_log self) (i2c_address self)
                  cmd_byte arg_bytes)).
Proof.
  unfold __write_bytes.
  replace (1 <=? Z.of_nat (length (cmd_byte :: arg_bytes))) with true
    by (symmetry; apply Z.leb_le; simpl length; lia).
  reflexivity.
Qed.

Lemma write_bytes_nil (self : SGP30) :
  __write_bytes bus [] self = (self, raise (AssertionError "")).
Proof. reflexivity. Qed.

Lemma read_bytes_step (len : Z) (self : SGP30) :
  __read_bytes bus len self
  = (extend_log [BusRead (i2c_address self) 0 len] self,
     raw <- read_i2c_block_data bus (io_log self) (i2c_address self) 0 len ;;
     bytearray raw).
Proof.
  unfold __read_bytes, st_bind, st_get, io_call, st_lift, ok. cbv beta iota.
  destruct (read_i2c_block_data bus (io_log self) (i2c_address self) 0 len);
    reflexivity.
Qed.

Lemma sleep_step (ms : Z) (self : SGP30) :
  sleep_ms ms self
  = (if ms <? 0 then self else extend_log [Sleep ms] self,
     if ms <? 0 then raise ValueError else ok tt).
Proof. unfold sleep_ms. destruct (ms <? 0); reflexivity. Qed.

Lemma run_command_as_frame
      (self : SGP30) (cmd : SGP30Command) (param_bytes : option (list Z)) :
  _has_feature_set self (required_feature_set cmd) = true ->
  (0 < parameter_length cmd ->
   exists pb, param_bytes = Some pb /\ Z.of_nat (length pb) = parameter_length cmd) ->
  _run_command bus cmd param_bytes self = run_frame bus cmd (frame cmd param_bytes) self.
Proof.
  intros Hcap Hpar. unfold frame.
  cbv beta iota zeta delta [_run_command st_bind st_get st_lift ok].
  rewrite Hcap. cbv beta iota delta [py_assert ok].
  destruct (0 <? parameter_length cmd) eqn:Hpos.
  - apply Z.ltb_lt in Hpos. destruct (Hpar Hpos) as (pb & -> & Hlen).
    apply Z.eqb_eq in Hlen. rewrite Hlen. reflexivity.
  - rewrite app_nil_r. reflexivity.
Qed.

Lemma run_frame_shape (self : SGP30) (cmd : SGP30Command) (bytes : list Z) :
  exists evs : list io_event,
    fst (run_frame bus cmd bytes self) = extend_log evs self
    /\ evs `prefix_of`
         match bytes with
         | cmd_byte :: arg_bytes =>
             [BusWrite (i2c_address self) cmd_byte arg_bytes;
              Sleep (response_time_ms cmd)]
             ++ (if 0 <? response_length cmd
                 then [BusRead (i2c_address self) 0 (response_length cmd)]
                 else [])
         | [] => []
         end.
Proof.
  unfold run_frame. destruct bytes as [|c args].
  - exists []. rewrite (st_bind_step _ _ _ _ _ (write_bytes_nil self)).
    split; [now rewrite extend_log_nil|reflexivity].
  - rewrite (st_bind_step _ _ _ _ _ (write_bytes_cons c args self)).
    destruct (of_status _) as [e|[]].
    { eexists. split; [reflexivity|]. eexists. reflexivity. }
    rewrite (st_bind_step _ _ _ _ _ (sleep_step _ _)).
    destruct (response_time_ms cmd <? 0).
    { eexists. split; [reflexivity|]. eexists. reflexivity. }
    cbv beta iota. rewrite extend_log_extend. cbn [app].
    destruct (0 <? response_length cmd).
    + rewrite (st_bind_step _ _ _ _ _ (read_bytes_step _ _)).
      rewrite extend_log_extend. cbn [app].
      eexists. split; [|reflexivity].
      destruct (rbind _ _); reflexivity.
    + eexists. split; [reflexivity|]. exists []. reflexivity.
Qed.

End CommandFacts.

Section TransactionFacts.

Variable bus : SMBus.

Lemma run_command_missing_parameters (self : SGP30) (cmd : SGP30Command) :
  _has_feature_set self (required_feature_set cmd) = true ->
  0 < parameter_length cmd ->
  _run_command bus cmd None self = (self, raise TypeError).
Proof.
  intros Hcap Hpos. apply Z.ltb_lt in Hpos.
  cbv beta iota zeta delta [_run_command st_bind st_get st_lift ok].
  rewrite Hcap. cbv beta iota delta [py_assert ok]. now rewrite Hpos.
Qed.

Lemma bytearray_ok_inv (values bs : list Z) :
  bytearray values = ok bs -> bs = values /\ Forall is_byte values.
Proof.
  unfold bytearray. destruct (forallb _ values) eqn:E; [|discriminate].
  intros [= <-]. split; [reflexivity|].
  apply Forall_forall. intros b Hb. apply list_elem_of_In in Hb.
  rewrite forallb_forall in E. specialize (E b Hb). unfold is_byte.
  apply andb_true_iff in E as [E1 E2].
  apply Z.leb_le in E1. apply Z.ltb_lt in E2. lia.
Qed.

Lemma run_frame_returns
      (self : SGP30) (cmd : SGP30Command) (bytes : list Z) (v : option (list Z)) :
  snd (run_frame bus cmd bytes self) = ok v ->
  exists cmd_byte arg_bytes,
    bytes = cmd_byte :: arg_bytes
    /\ write_i2c_block_data bus (io_log self) (i2c_address self) cmd_byte arg_bytes
       = None
    /\ 0 <= response_time_ms cmd
    /\ fst (run_frame bus cmd bytes self)
       = extend_log
           ([BusWrite (i2c_address self) cmd_byte arg_bytes;
             Sleep (response_time_ms cmd)]
            ++ (if 0 <? response_length cmd
                then [BusRead (i2c_address self) 0 (response_length cmd)]
                else []))
           self
    /\ match v with
       | Some raw =>
           0 < response_length cmd
           /\ Forall is_byte raw
           /\ read_i2c_block_data bus
                (io_log self
                 ++ [BusWrite (i2c_address self) cmd_byte arg_bytes;
                     Sleep (response_time_ms cmd)])
                (i2c_address self) 0 (response_length cmd)
              = ok raw
       | None => response_length cmd <= 0
       end.
Proof.
  unfold run_frame. destruct bytes as [|c args].
  { rewrite (st_bind_step _ _ _ _ _ (write_bytes_nil bus self)). discriminate. }
  rewrite (st_bind_step _ _ _ _ _ (write_bytes_cons bus c args self)).
  destruct (write_i2c_block_data bus (io_log self) (i2c_address self) c args)
    as [e|] eqn:Hwrite; [discriminate|].
  cbv beta iota delta [of_status ok].
  rewrite (st_bind_step _ _ _ _ _ (sleep_step _ _)).
  destruct (Z.ltb_spec (response_time_ms cmd) 0) as [Hneg|Hms]; [discriminate|].
  cbv beta iota delta [ok]. rewrite extend_log_extend. cbn [app].
  destruct (Z.ltb_spec 0 (response_length cmd)) as [Hpos|Hnone].
  - rewrite (st_bind_step _ _ _ _ _ (read_bytes_step bus _ _)).
    rewrite extend_log_extend. cbn [app extend_log io_log i2c_address].
    destruct (read_i2c_block_data bus _ (i2c_address self) 0 (response_length cmd))
      as [e|raw] eqn:Hread; [discriminate|].
    cbn [rbind]. destruct (bytearray raw) as [e|bs] eqn:Hbs; [discriminate|].
    apply bytearray_ok_inv in Hbs as [-> Hbytes].
    intros [= <-]. exists c, args. repeat split; assumption.
  - intros [= <-]. exists c, args. repeat split; assumption.
Qed.

End TransactionFacts.

Lemma run_command_log_prefix
        (bus : SMBus) (self : SGP30) (cmd : SGP30Command)
        (param_bytes : option (list Z)) :
  exists evs : list io_event,
    fst (_run_command bus cmd param_bytes self) = extend_log evs self
    /\ evs `prefix_of` transaction self cmd param_bytes.
Proof.
  assert (Hnothing : exists evs : list io_event,
             self = extend_log evs self
             /\ evs `prefix_of` transaction self cmd param_bytes).
  { exists []. split; [now rewrite extend_log_nil|]. now eexists. }
  destruct (_has_feature_set self (required_feature_set cmd)) eqn:Hcap.
  2: { now rewrite run_command_unsupported. }
  destruct (Z.ltb_spec 0 (parameter_length cmd)) as [Hpos|Hnone].
  - destruct param_bytes as [pb|].
    + destruct (decide (Z.of_nat (length pb) = parameter_length cmd)) as [Hlen|Hlen].
      * rewrite run_command_as_frame by eauto. apply run_frame_shape.
      * now rewrite run_command_bad_count.
    + now rewrite run_command_missing_parameters.
  - rewrite run_command_as_frame by (assumption || lia). apply run_frame_shape.
Qed.

(** X11. Whatever the bus answers and however it ends, [_run_command]
    leaves every attribute of the driver as it was, and what it does on
    the bus is an initial part of: write the frame, sleep the settle
    time, read the response if one is due. *)
Theorem run_command_io_shape
        (bus : SMBus) (self : SGP30) (cmd : SGP30Command)
        (param_bytes : option (list Z)) :
  exists evs : list io_event,
    fst (_run_command bus cmd param_bytes self) = extend_log evs self
    /\ evs `prefix_of` transaction self cmd param_bytes.
Proof. exact (run_command_log_prefix bus self cmd param_bytes). Qed.

(** X12. When [_run_command] returns, both preconditions held, the bus
    took the write, and the whole transaction is in the log; a returned
    buffer is the bus's answer to the read, made of bytes, and [None] is
    returned exactly for a command with no response. *)
Theorem run_command_returns
        (bus : SMBus) (self : SGP30) (cmd : SGP30Command)
        (param_bytes : option (list Z)) (v : option (list Z)) :
  snd (_run_command bus cmd param_bytes self) = ok v ->
  _has_feature_set self (required_feature_set cmd) = true
  /\ (0 < parameter_length cmd ->
      exists pb, param_bytes = Some pb /\ Z.of_nat (length pb) = parameter_length cmd)
  /\ fst (_run_command bus cmd param_bytes self)
     = extend_log (transaction self cmd param_bytes) self
  /\ match v with
     | Some raw =>
         0 < response_length cmd
         /\ Forall is_byte raw
         /\ read_i2c_block_data bus
              (io_log self ++ take 2 (transaction self cmd param_bytes))
              (i2c_address self) 0 (response_length cmd)
            = ok raw
     | None => response_length cmd <= 0
     end.
Proof.
  intros H.
  destruct (_has_feature_set self (required_feature_set cmd)) eqn:Hcap.
  2: { rewrite run_command_unsupported in H by assumption. discriminate. }
  assert (Hpar : 0 < parameter_length cmd ->
                 exists pb, param_bytes = Some pb
                            /\ Z.of_nat (length pb) = parameter_length cmd).
  { intros Hpos. destruct param_bytes as [pb|].
    - destruct (decide (Z.of_nat (length pb) = parameter_length cmd)) as [Hlen|Hlen];
        [eauto|].
      rewrite run_command_bad_count in H by assumption. discriminate.
    - rewrite run_command_missing_parameters in H by assumption. discriminate. }
  split; [reflexivity|]. split; [exact Hpar|].
  rewrite run_command_as_frame in * by assumption.
  destruct (run_frame_returns _ _ _ _ _ H) as (c & args & Hframe & _ & _ & Hfst & Hv).
  rewrite Hfst. unfold transaction. rewrite Hframe. split; [reflexivity|].
  destruct v as [raw|]; exact Hv.
Qed.

Lemma run_command_returns_witness :
  _has_feature_set identified_driver (Some 0x20) = true
  /\ fst (_run_command quiet_bus (Build_SGP30Command [0x20; 0x08] (Some 0x20) 0 6 12)
            None identified_driver)
     = extend_log [BusWrite 0x58 0x20 [0x08]; Sleep 12; BusRead 0x58 0 6]
         identified_driver.
Proof.
  pose proof (run_command_returns quiet_bus identified_driver
                (Build_SGP30Command [0x20; 0x08] (Some 0x20) 0 6 12) None
                (Some [0; 0; 0; 0; 0; 0]) eq_refl) as H.
  split; [apply H|]. apply (proj1 (proj2 (proj2 H))).
Defined.

(** ** Setting baseline and humidity *)

Lemma has_feature_set_0x20 (self : SGP30) :
  chip_version self = Some 0x20 -> _has_feature_set self (Some 0x20) = true.
Proof. unfold _has_feature_set. now intros ->. Qed.

Lemma word_setter_sends
      (bus : SMBus) (self : SGP30) (cmd_name : string) (cmd : SGP30Command)
      (words : list Z) (cmd_byte : Z) (arg_bytes : list Z) :
  cmds_getitem cmd_name = ok cmd ->
  response_length cmd = 0 ->
  parameter_length cmd = Z.of_nat (3 * length words) ->
  (0 < length words)%nat ->
  required_feature_set cmd = Some 0x20 ->
  opcode_bytes cmd = cmd_byte :: arg_bytes ->
  0 <= response_time_ms cmd ->
  chip_version self = Some 0x20 ->
  Forall is_uint16 words ->
  write_i2c_block_data bus (io_log self) (i2c_address self) cmd_byte
    (arg_bytes ++ concat (wire_triplet <$> words)) = None ->
  _run_word_setter bus cmd_name words self
  = (extend_log
       [BusWrite (i2c_address self) cmd_byte
          (arg_bytes ++ concat (wire_triplet <$> words));
        Sleep (response_time_ms cmd)] self,
     ok tt).
Proof.
  intros Hget Hr Hp Hne Hreq Hop Hms Hchip Hwords Hwrite.
  cbv beta iota zeta delta [_run_word_setter st_bind st_lift ok].
  rewrite Hget. cbv beta iota delta [ok]. rewrite Hr.
  replace (0 <? parameter_length cmd) with true by (symmetry; apply Z.ltb_lt; lia).
  replace (parameter_length cmd mod 3 =? 0) with true.
  2: { symmetry. apply Z.eqb_eq. rewrite Hp, Nat2Z.inj_mul, Z.mul_comm.
       apply Z.mod_mul. lia. }
  cbv beta iota delta [Z.eqb py_assert ok].
  unfold _bytes_for_checksummed_words. rewrite bytes_loop_uint16 by assumption.
  cbv beta iota delta [ok]. cbn [app].
  rewrite run_command_as_frame.
  2: { rewrite Hreq. now apply has_feature_set_0x20. }
  2: { intros _. eexists. split; [reflexivity|]. rewrite length_wire. now symmetry. }
  unfold frame, run_frame.
  replace (0 <? parameter_length cmd) with true by (symmetry; apply Z.ltb_lt; lia).
  rewrite Hop. cbn [default from_option id app].
  rewrite (st_bind_step _ _ _ _ _ (write_bytes_cons bus _ _ self)).
  rewrite Hwrite. cbv beta iota delta [of_status ok].
  rewrite (st_bind_step _ _ _ _ _ (sleep_step _ _)).
  replace (response_time_ms cmd <? 0) with false by (symmetry; apply Z.ltb_ge; lia).
  cbv beta iota delta [ok]. rewrite extend_log_extend, Hr. reflexivity.
Qed.

(** X13. On a driver that holds the feature set, with 16-bit arguments
    and a bus that takes the write, [set_baseline] and [set_humidity]
    send one frame, the opcode followed by each word as two big-endian
    bytes and their checksum, wait 10 ms, read nothing and return. *)
Theorem setters_send_encoded_words
        (bus : SMBus) (self : SGP30) (co2_baseline voc_baseline humidity : Z) :
  chip_version self = Some 0x20 ->
  (is_uint16 co2_baseline -> is_uint16 voc_baseline ->
   write_i2c_block_data bus (io_log self) (i2c_address self) 0x20
     (0x1e :: wire_triplet co2_baseline ++ wire_triplet voc_baseline) = None ->
   set_baseline bus co2_baseline voc_baseline self
   = (extend_log
        [BusWrite (i2c_address self) 0x20
           (0x1e :: wire_triplet co2_baseline ++ wire_triplet voc_baseline);
         Sleep 10] self,
      ok tt))
  /\ (is_uint16 humidity ->
      write_i2c_block_data bus (io_log self) (i2c_address self) 0x20
        (0x61 :: wire_triplet humidity) = None ->
      set_humidity bus humidity self
      = (extend_log
           [BusWrite (i2c_address self) 0x20 (0x61 :: wire_triplet humidity);
            Sleep 10] self,
         ok tt)).
Proof.
  intros Hchip. split.
  - intros Hco2 Hvoc Hwrite. unfold set_baseline.
    assert (Hall : Forall is_uint16 [co2_baseline; voc_baseline])
      by (repeat (apply List.Forall_cons; [assumption|]); apply List.Forall_nil).
    rewrite (word_setter_sends bus self "set_baseline" _ [co2_baseline; voc_baseline]
               0x20 [0x1e] eq_refl eq_refl eq_refl);
      try reflexivity; try assumption; simpl; lia.
  - intros Hh Hwrite. unfold set_humidity.
    assert (Hall : Forall is_uint16 [humidity])
      by (repeat (apply List.Forall_cons; [assumption|]); apply List.Forall_nil).
    rewrite (word_setter_sends bus self "set_humidity" _ [humidity]
               0x20 [0x61] eq_refl eq_refl eq_refl);
      try reflexivity; try assumption; simpl; lia.
Qed.

Lemma setters_send_encoded_words_witness :
  set_baseline quiet_bus 0xBEEF 0 identified_driver
  = (extend_log
       [BusWrite 0x58 0x20 [0x1e; 0xBE; 0xEF; 0x92; 0; 0; 0x81]; Sleep 10]
       identified_driver,
     ok tt)
  /\ set_humidity quiet_bus 0x0190 identified_driver
     = (extend_log
          [BusWrite 0x58 0x20 (0x61 :: wire_triplet 0x0190); Sleep 10]
          identified_driver,
        ok tt).
Proof.
  pose proof (setters_send_encoded_words quiet_bus identified_driver
                0xBEEF 0 0x0190 eq_refl) as [H1 H2].
  split.
  - apply H1; [unfold is_uint16; lia|unfold is_uint16; lia|reflexivity].
  - apply H2; [unfold is_uint16; lia|reflexivity].
Defined.

(** X14. A value outside [0 .. 0xFFFF] never reaches the bus: whatever
    the state of the driver, the setter raises [struct.error] and
    changes nothing. *)
Theorem setters_reject_wide_values
        (bus : SMBus) (self : SGP30) (co2_baseline voc_baseline humidity : Z) :
  (~ (is_uint16 co2_baseline /\ is_uint16 voc_baseline) ->
   set_baseline bus co2_baseline voc_baseline self = (self, raise StructError))
  /\ (~ is_uint16 humidity ->
      set_humidity bus humidity self = (self, raise StructError)).
Proof.
  assert (Hset : forall name cmd words,
             cmds_getitem name = ok cmd ->
             response_length cmd = 0 -> (0 <? parameter_length cmd) = true ->
             parameter_length cmd mod 3 = 0 ->
             ~ Forall is_uint16 words ->
             _run_word_setter bus name words self = (self, raise StructError)).
  { intros name cmd words Hget Hr Hpos Hp Hbad.
    cbv beta iota zeta delta [_run_word_setter st_bind st_lift ok].
    rewrite Hget. cbv beta iota delta [ok]. rewrite Hr, Hpos, Hp.
    cbv beta iota delta [Z.eqb py_assert ok].
    rewrite bytes_for_words_cases. destruct (decide (Forall is_uint16 words)); [contradiction|].
    reflexivity. }
  split.
  - intros Hbad. unfold set_baseline.
    apply (Hset "set_baseline" _ _ eq_refl eq_refl eq_refl eq_refl).
    intros H. apply Hbad.
    apply Forall_cons in H as [H1 H]. apply Forall_cons in H as [H2 _]. now split.
  - intros Hbad. unfold set_humidity.
    apply (Hset "set_humidity" _ _ eq_refl eq_refl eq_refl eq_refl).
    intros H. apply Hbad. now apply Forall_cons in H as [H1 _].
Qed.

Lemma setters_reject_wide_values_witness :
  set_baseline quiet_bus 400 (-1) identified_driver
  = (identified_driver, raise StructError)
  /\ set_humidity quiet_bus 0x10000 identified_driver
     = (identified_driver, raise StructError).
Proof.
  pose proof (setters_reject_wide_values quiet_bus identified_driver
                400 (-1) 0x10000) as [H1 H2].
  split.
  - apply H1. unfold is_uint16. lia.
  - apply H2. unfold is_uint16. lia.
Defined.

(** ** The feature-set test *)

(** X15. The feature-set test compares bits 5 to 7 and nothing else: on
    a driver whose [chip_version] is the masked raw value, as [open]
    computes it, a required value is accepted exactly when it agrees
    with the raw value on those three bits. *)
Theorem has_feature_set_bits (self : SGP30) (raw required : Z) :
  _has_feature_set
    (set_chip_version (Z.land raw _SGP30_FEATURE_SET_BITMASK) self) (Some required)
  = true
  <-> (forall n : Z, 5 <= n <= 7 -> Z.testbit raw n = Z.testbit required n).
Proof.
  unfold _has_feature_set, set_chip_version. cbn [chip_version].
  rewrite Z.eqb_eq. split.
  - intros E n Hn.
    assert (Hbit : Z.testbit (Z.land raw _SGP30_FEATURE_SET_BITMASK) n
                   = Z.testbit (Z.land required _SGP30_FEATURE_SET_BITMASK) n)
      by now rewrite E.
    rewrite !Z.land_spec in Hbit.
    rewrite (proj2 (feature_mask_bits n) Hn), !andb_true_r in Hbit. exact Hbit.
  - intros H. apply Z.bits_inj'. intros n _. rewrite !Z.land_spec.
    destruct (Z.testbit _SGP30_FEATURE_SET_BITMASK n) eqn:Em.
    + apply feature_mask_bits in Em. now rewrite (H n Em).
    + now rewrite !andb_false_r.
Qed.

(** ** Reading words back *)

Lemma word_getter_raises_after_io (bus : SMBus) (cmd_name : string) (self : SGP30) :
  exists (evs : list io_event) (e : exn),
    _run_word_getter bus cmd_name self = (extend_log evs self, raise e).
Proof.
  assert (Hstay : forall e : exn,
             exists (evs : list io_event) (e' : exn),
               (self, @raise (list Z) e) = (extend_log evs self, raise e')).
  { intros e. exists [], e. now rewrite extend_log_nil. }
  cbv beta iota zeta delta [_run_word_getter st_bind st_lift ok].
  destruct (cmds_getitem cmd_name) as [e|cmd]; [apply Hstay|].
  destruct (py_assert (parameter_length cmd =? 0) _) as [e|_]; [apply Hstay|].
  destruct (py_assert (response_length cmd mod 3 =? 0) _) as [e|_]; [apply Hstay|].
  destruct (run_command_log_prefix bus self cmd None) as (evs & Hfst & _).
  destruct (_run_command bus cmd None self) as [self' r]. cbn [fst] in Hfst.
  subst self'. destruct r as [e|[data|]]; exists evs; eexists; reflexivity.
Qed.

(** X16. Under Python 3 division the word count handed to the decoder is
    a float, so no word getter ever returns: [_run_word_getter], and
    with it [measure_air_quality], [get_baseline] and
    [measure_raw_signals], ends in an exception for every command name,
    bus and driver, the attributes of the driver unchanged. *)
Theorem word_getters_never_return (bus : SMBus) (self : SGP30) :
  (forall cmd_name : string,
      exists (evs : list io_event) (e : exn),
        _run_word_getter bus cmd_name self = (extend_log evs self, raise e))
  /\ (exists (evs : list io_event) (e : exn),
         measure_air_quality bus self = (extend_log evs self, raise e))
  /\ (exists (evs : list io_event) (e : exn),
         get_baseline bus self = (extend_log evs self, raise e))
  /\ (exists (evs : list io_event) (e : exn),
         measure_raw_signals bus self = (extend_log evs self, raise e)).
Proof.
  split; [intros name; apply word_getter_raises_after_io|].
  split; [|split].
  - destruct (word_getter_raises_after_io bus "measure_air_quality" self)
      as (evs & e & H).
    exists evs, e. unfold measure_air_quality, st_bind. now rewrite H.
  - destruct (word_getter_raises_after_io bus "get_baseline" self) as (evs & e & H).
    exists evs, e. unfold get_baseline, st_bind. now rewrite H.
  - apply word_getter_raises_after_io.
Qed.

(** X17. On a driver that holds the feature set, with a bus that takes
    the write and answers the read with six bytes, [measure_air_quality]
    performs its whole transaction (write [0x20 0x08], 12 ms, read 6)
    and then raises [TypeError], whatever the bytes are. *)
Theorem measure_air_quality_after_io
        (bus : SMBus) (self : SGP30) (raw : list Z) :
  chip_version self = Some 0x20 ->
  write_i2c_block_data bus (io_log self) (i2c_address self) 0x20 [0x08] = None ->
  read_i2c_block_data bus
    (io_log self ++ [BusWrite (i2c_address self) 0x20 [0x08]; Sleep 12])
    (i2c_address self) 0 6 = ok raw ->
  Forall is_byte raw ->
  measure_air_quality bus self
  = (extend_log [BusWrite (i2c_address self) 0x20 [0x08]; Sleep 12;
                 BusRead (i2c_address self) 0 6] self,
     raise TypeError).
Proof.
  intros Hchip Hwrite Hread Hbytes.
  assert (Hba : bytearray raw = ok raw).
  { unfold bytearray. replace (forallb _ raw) with true; [reflexivity|].
    symmetry. apply forallb_forall. intros b Hb.
    rewrite Forall_forall in Hbytes. apply list_elem_of_In in Hb.
    specialize (Hbytes b Hb). unfold is_byte in Hbytes.
    apply andb_true_iff. split; [apply Z.leb_le|apply Z.ltb_lt]; lia. }
  unfold measure_air_quality.
  cbv beta iota zeta delta [_run_word_getter st_bind st_lift ok].
  change (cmds_getitem "measure_air_quality")
    with (ok (Build_SGP30Command [0x20; 0x08] (Some 0x20) 0 6 12)).
  cbv beta iota delta [ok]. cbn [parameter_length response_length].
  cbv beta iota delta [Z.eqb Z.modulo Z.div_eucl Z.pos_div_eucl
                         Z.leb Z.ltb Z.compare Pos.compare Pos.compare_cont
                         Z.mul Z.add Z.sub Z.opp Z.pos_sub Pos.mul Pos.add
                         Pos.succ Pos.pred_double Z.double Z.succ_double
                         Z.pred_double py_assert ok].
  rewrite run_command_as_frame.
  2: { now apply has_feature_set_0x20. }
  2: { cbn [parameter_length]. lia. }
  unfold frame, run_frame. cbn [parameter_length opcode_bytes response_time_ms
                                  response_length app].
  change (0 <? 0) with false. change (0 <? 6) with true. cbv beta iota. cbn [app].
  rewrite (st_bind_step _ _ _ _ _ (write_bytes_cons bus _ _ self)).
  rewrite Hwrite. cbv beta iota delta [of_status ok].
  rewrite (st_bind_step _ _ _ _ _ (sleep_step _ _)).
  change (12 <? 0) with false. cbv beta iota delta [ok].
  rewrite extend_log_extend. cbn [app].
  rewrite (st_bind_step _ _ _ _ _ (read_bytes_step bus _ _)).
  cbn [extend_log io_log i2c_address]. rewrite Hread.
  cbv beta iota delta [rbind ok]. rewrite Hba.
  cbv beta iota delta [ok st_ret]. rewrite extend_log_extend. reflexivity.
Qed.

Lemma measure_air_quality_after_io_witness :
  measure_air_quality quiet_bus identified_driver
  = (extend_log [BusWrite 0x58 0x20 [0x08]; Sleep 12; BusRead 0x58 0 6]
       identified_driver,
     raise TypeError).
Proof.
  apply (measure_air_quality_after_io quiet_bus identified_driver [0; 0; 0; 0; 0; 0]).
  - reflexivity.
  - reflexivity.
  - reflexivity.
  - repeat constructor; unfold is_byte; lia.
Defined.

(** ** Opening and closing *)

(** X18. [open] first opens the bus and then asks for the serial number
    through a word getter; as no word getter returns, [open] always ends
    in an exception, and [serial_number], [_raw_feature_set] and
    [chip_version] are left as they were. *)
Theorem open_never_completes (bus : SMBus) (self : SGP30) :
  exists (evs : list io_event) (e : exn),
    open bus self = (extend_log (BusOpen (i2c_bus_number self) :: evs) self, raise e).
Proof.
  unfold open. cbv beta iota zeta delta [st_bind st_get io_call ok].
  rewrite log_event_as_extend.
  destruct (of_status _) as [e|[]].
  { exists [], e. reflexivity. }
  unfold _get_serial_number.
  destruct (word_getter_raises_after_io bus "get_serial_number"
              (extend_log [BusOpen (i2c_bus_number self)] self)) as (evs & e & H).
  rewrite H. exists evs, e. now rewrite extend_log_extend.
Qed.

(** ** More on the codec and the checksum *)

(** X19. Decoding fewer words than were encoded returns the first of
    them: with a count [n] up to the number of words, the decoder gives
    the first [n] words of the encoded sequence. *)
Theorem decode_encoded_prefix (W : list Z) (n : nat) :
  Forall is_uint16 W -> (n <= length W)%nat ->
  exists bs : list Z,
    _bytes_for_checksummed_words W = ok bs
    /\ _read_checksummed_words bs (PyInt (Z.of_nat n)) = ok (take n W).
Proof.
  intros HW Hn. exists (concat (wire_triplet <$> W)). split.
  { unfold _bytes_for_checksummed_words. now rewrite bytes_loop_uint16. }
  unfold _read_checksummed_words, py_range. cbn [rbind ok]. rewrite Nat2Z.id.
  pose proof (read_words_loop_wire (take n W) []
                (concat (wire_triplet <$> drop n W)) [] 0 eq_refl) as H.
  cbn [app] in H. rewrite <- concat_app, <- fmap_app, take_drop in H.
  rewrite length_take, Nat.min_l in H by exact Hn. exact H.
Qed.

Lemma decode_encoded_prefix_witness :
  exists bs : list Z,
    _bytes_for_checksummed_words [0xBEEF; 0x0190; 7] = ok bs
    /\ _read_checksummed_words bs (PyInt (Z.of_nat 2)) = ok (take 2 [0xBEEF; 0x0190; 7]).
Proof.
  apply (decode_encoded_prefix [0xBEEF; 0x0190; 7] 2).
  - repeat constructor; unfold is_uint16; lia.
  - simpl. lia.
Defined.

Lemma lxor_byte (a b : Z) : is_byte a -> is_byte b -> is_byte (Z.lxor a b).
Proof.
  unfold is_byte. intros Ha Hb.
  rewrite <- (low8_small a Ha), <- (low8_small b Hb), <- land_lxor_distr.
  apply low8_range.
Qed.

(** Eight shift steps send no byte but zero to zero. *)
Lemma shift8_kernel (x : Z) :
  is_byte x -> Nat.iter 8 Reference.shift x = 0 -> x = 0.
Proof.
  intros Hx.
  assert (Hall : forallb (fun n => negb (Nat.iter 8 Reference.shift (Z.of_nat n) =? 0)
                                   || (Z.of_nat n =? 0))
                   (seq 0 256) = true) by (vm_compute; reflexivity).
  rewrite forallb_forall in Hall.
  specialize (Hall (Z.to_nat x)). unfold is_byte in Hx.
  rewrite Z2Nat.id in Hall by lia.
  intros E. rewrite E in Hall. cbn [Z.eqb negb orb] in Hall.
  apply Z.eqb_eq, Hall, in_seq. lia.
Qed.

(** X20. The checksum has a zero residue: for a byte [c], the checksum of
    a message followed by [c] is zero exactly when [c] is the checksum of
    the message. *)
Theorem crc_residue (data : list Z) (c : Z) :
  is_byte c -> (_crc (data ++ [c]) = 0 <-> c = _crc data).
Proof.
  intros Hc. rewrite crc_snoc. unfold Reference.absorb. split.
  - intros E. apply shift8_kernel in E.
    + apply Z.lxor_eq in E. now symmetry.
    + apply lxor_byte; [apply crc_range|exact Hc].
  - intros ->. rewrite Z.lxor_nilpotent. reflexivity.
Qed.

Lemma crc_residue_witness : _crc ([0xBE; 0xEF] ++ [0x92]) = 0 <-> 0x92 = _crc [0xBE; 0xEF].
Proof. apply (crc_residue [0xBE; 0xEF] 0x92). unfold is_byte. lia. Defined.
